(** * ChatExchange: the message-send pipeline and the event classifier

    A shallow embedding of [chatexchange/wrapper.py] (Python 2).

    - [Py]: the fragment of Python data the wrapper handles: values as
      they come back from the transport or from a decoded JSON activity
      message, exceptions, truthiness, subscripting, [dict.get],
      iteration, [int()] on a digit string and [re.match] for the one
      pattern of the source, [TOO_FAST_RE].
    - [Event]: the class [Event] with its enumeration [Types].
    - [SEChatWrapper]: the class [SEChatWrapper]: construction, login,
      logout, [sendMessage], the worker thread's body [_worker], the
      send loop [_actuallySendMessage] and [_room_events].

    What is left out: the calls to the logger (except the one that
    reports an unrecognized event type), and with them the local
    counter [attempt] of the send loop, which feeds log lines only; the
    reference to the wrapper an [Event] keeps; [joinRoom] and
    [text_content], which delegate to modules that are not part of this
    file, and the transport's side of [watchRoom] and [watchRoomSocket],
    of which the closure [on_activity] they build is here.

    The transport ([browser.SEChatBrowser]) is external.  Its answers to
    [postSomething] are given as a script: the list of values it will
    return, in order; every call returns a value, of any kind.  A run
    that needs an answer the script no longer holds stops with the status
    [AwaitingResponse].  The send loop recurses on the script; the
    [while True] of the worker takes fuel, and more fuel than the queue
    is long is always enough ([worker_loop_fuel]).

    The worker is a thread of its own.  Its run is given here on the
    queue as the calls to [sendMessage] have left it; a call made while
    the worker is busy adds to the end of the queue and changes nothing
    of the run ([worker_loop_put]). *)

From Stdlib Require Import ZArith List String Ascii Bool Lia.
From Stdlib Require Import DecimalString DecimalNat.
Import ListNotations.

Set Warnings "-register-all".

Local Open Scope string_scope.
Local Open Scope list_scope.
Local Open Scope Z_scope.

(* ================================================================== *)
(** ** Python data *)

Module Py.

(** Values.  [VStr] is Python 2's byte string [str], [VUnicode] its
    [unicode]; a dict keeps its items as an association list whose
    first binding of a key is the one that counts. *)
Inductive value : Type :=
| VNone
| VBool (b : bool)
| VInt (n : Z)
| VStr (s : string)
| VUnicode (s : string)
| VList (l : list value)
| VDict (d : list (string * value)).

Inductive exn : Type :=
| AssertionError
| KeyError (key : string)
| TypeError
| AttributeError
| ValueError (msg : string) (arg : string)
| RuntimeError
| OtherError (what : string).

Inductive result (A : Type) : Type :=
| Ok (a : A)
| Raise (e : exn).
Arguments Ok {A} a.
Arguments Raise {A} e.

Definition bind {A B} (r : result A) (k : A -> result B) : result B :=
  match r with
  | Ok a => k a
  | Raise e => Raise e
  end.

(** [bool(v)] *)
Definition truthy (v : value) : bool :=
  match v with
  | VNone => false
  | VBool b => b
  | VInt n => negb (n =? 0)
  | VStr s | VUnicode s => negb (String.eqb s "")
  | VList l => match l with [] => false | _ :: _ => true end
  | VDict d => match d with [] => false | _ :: _ => true end
  end.

Fixpoint lookup (key : string) (d : list (string * value)) : option value :=
  match d with
  | [] => None
  | (k, v) :: d' => if String.eqb k key then Some v else lookup key d'
  end.

(** [v[key]] for a string key *)
Definition getitem (v : value) (key : string) : result value :=
  match v with
  | VDict d =>
      match lookup key d with
      | Some x => Ok x
      | None => Raise (KeyError key)
      end
  | _ => Raise TypeError
  end.

(** [v.get(key, default)]: only a dict has the method *)
Definition get (v : value) (key : string) (default : value) : result value :=
  match v with
  | VDict d =>
      match lookup key d with
      | Some x => Ok x
      | None => Ok default
      end
  | _ => Raise AttributeError
  end.

Fixpoint chars (mk : string -> value) (s : string) : list value :=
  match s with
  | EmptyString => []
  | String c s' => mk (String c EmptyString) :: chars mk s'
  end.

(** [for x in v]: the items the loop sees *)
Definition iter (v : value) : result (list value) :=
  match v with
  | VList l => Ok l
  | VDict d => Ok (map (fun kv => VStr (fst kv)) d)
  | VStr s => Ok (chars VStr s)
  | VUnicode s => Ok (chars VUnicode s)
  | VNone | VBool _ | VInt _ => Raise TypeError
  end.

(** [\d] of a byte-string pattern: the ASCII digits *)
Definition is_digit (c : ascii) : bool :=
  ((48 <=? nat_of_ascii c) && (nat_of_ascii c <=? 57))%nat.

Definition digit_value (c : ascii) : Z := Z.of_nat (nat_of_ascii c) - 48.

Fixpoint int_from (acc : Z) (s : string) : Z :=
  match s with
  | EmptyString => acc
  | String c s' => int_from (acc * 10 + digit_value c) s'
  end.

(** [int(s)] on a string of digits *)
Definition int (s : string) : Z := int_from 0 s.

Fixpoint all_digits (s : string) : bool :=
  match s with
  | EmptyString => true
  | String c s' => is_digit c && all_digits s'
  end.

(** [s] without its prefix [p], when it has it *)
Fixpoint strip_prefix (p s : string) : option string :=
  match p, s with
  | EmptyString, _ => Some s
  | String a p', String b s' =>
      if Ascii.eqb a b then strip_prefix p' s' else None
  | String _ _, EmptyString => None
  end.

(** The longest run of digits [s] starts with, and what follows it *)
Fixpoint span_digits (s : string) : string * string :=
  match s with
  | EmptyString => (EmptyString, EmptyString)
  | String c s' =>
      if is_digit c
      then let (ds, tl) := span_digits s' in (String c ds, tl)
      else (EmptyString, s)
  end.

End Py.
Import Py.

(* ================================================================== *)
(** ** Module level *)

(** [TOO_FAST_RE = "You can perform this action again in (\d+) seconds"],
    in the two literal parts around its group. *)
Definition TOO_FAST_RE_before : string := "You can perform this action again in ".
Definition TOO_FAST_RE_after : string := " seconds".

(** [re.match(TOO_FAST_RE, response)]: [Some] of group 1 on a match.
    [re.match] anchors at the start of the string only.  [\d+] is
    greedy, and a shorter run of digits than the longest one is followed
    by a digit, where the pattern wants a space: only the longest run can
    match. *)
Definition match_TOO_FAST_RE (response : string) : option string :=
  match strip_prefix TOO_FAST_RE_before response with
  | None => None
  | Some s =>
      let (ds, tl) := span_digits s in
      match ds with
      | EmptyString => None
      | String _ _ =>
          match strip_prefix TOO_FAST_RE_after tl with
          | Some _ => Some ds
          | None => None
          end
      end
  end.

(* ================================================================== *)
(** ** class Event *)

Module Event.

(** [class Types(enum.IntEnum)] *)
Inductive Types : Type :=
| message_posted | message_edited | user_entered | user_left
| room_name_changed | message_starred | debug_message | user_mentioned
| message_flagged | message_deleted | file_added | moderator_flag
| user_settings_changed | global_notification | access_level_changed
| user_notification | invitation | message_reply | message_moved_out
| message_moved_in | time_break | feed_ticker | user_suspended
| user_merged.

(** The members in the order of their definition, which is the order
    in which iterating over the class yields them. *)
Definition members : list Types :=
  [ message_posted; message_edited; user_entered; user_left;
    room_name_changed; message_starred; debug_message; user_mentioned;
    message_flagged; message_deleted; file_added; moderator_flag;
    user_settings_changed; global_notification; access_level_changed;
    user_notification; invitation; message_reply; message_moved_out;
    message_moved_in; time_break; feed_ticker; user_suspended;
    user_merged ].

Definition value_of (t : Types) : Z :=
  match t with
  | message_posted => 1 | message_edited => 2 | user_entered => 3
  | user_left => 4 | room_name_changed => 5 | message_starred => 6
  | debug_message => 7 | user_mentioned => 8 | message_flagged => 9
  | message_deleted => 10 | file_added => 11 | moderator_flag => 12
  | user_settings_changed => 13 | global_notification => 14
  | access_level_changed => 15 | user_notification => 16
  | invitation => 17 | message_reply => 18 | message_moved_out => 19
  | message_moved_in => 20 | time_break => 21 | feed_ticker => 22
  | user_suspended => 29 | user_merged => 30
  end.

(** [Types.by_value()]: the dict from each member's value to the member *)
Definition by_value : list (Z * Types) :=
  map (fun enum_value => (value_of enum_value, enum_value)) members.

Fixpoint find_value (n : Z) (d : list (Z * Types)) : option Types :=
  match d with
  | [] => None
  | (k, t) :: d' => if k =? n then Some t else find_value n d'
  end.

(** What [self.type] holds: a member of [Types], or the value of
    [data['event_type']] as it came. *)
Inductive type_field : Type :=
| Member (t : Types)
| Plain (v : value).

(** [Types.by_value()[v]], with the [KeyError] caught as the source
    does: an int is looked up by its value, a bool hashes and compares
    as the int 0 or 1, [None] and strings are hashable and are no key of
    the dict, a list or a dict is unhashable and the [TypeError] is not
    caught. *)
Definition resolve (v : value) : result (type_field * bool) :=
  match v with
  | VInt n =>
      match find_value n by_value with
      | Some t => Ok (Member t, false)
      | None => Ok (Plain v, true)
      end
  | VBool b =>
      match find_value (if b then 1 else 0) by_value with
      | Some t => Ok (Member t, false)
      | None => Ok (Plain v, true)
      end
  | VNone | VStr _ | VUnicode _ => Ok (Plain v, true)
  | VList _ | VDict _ => Raise TypeError
  end.

(** [self.type == self.Types.message_posted] *)
Definition is_message_posted (ty : type_field) : bool :=
  match ty with
  | Member t => value_of t =? value_of message_posted
  | Plain (VInt n) => n =? 1
  | Plain (VBool b) => b
  | Plain _ => false
  end.

(** The four attributes only a posted message has *)
Record message_fields : Type := {
  content : value;
  user_name : value;
  user_id : value;
  message_id : value
}.

Record t : Type := {
  _data : value;
  type : type_field;
  event_id : value;
  room_id : value;
  room_name : value;
  time_stamp : value;
  posted : option message_fields
}.

(** The one log line kept: [logger.info("Unrecognized event type: %s", ...)] *)
Inductive log_record : Type :=
| Unrecognized_event_type (v : value).

(** [Event.__init__(self, wrapper, data)]: the event built, and what it
    logged. *)
Definition __init__ (data : value) : result (t * list log_record) :=
  if negb (truthy data) then Raise AssertionError else
  bind (getitem data "event_type") (fun ty0 =>
  bind (getitem data "id") (fun id =>
  bind (getitem data "room_id") (fun rid =>
  bind (getitem data "room_name") (fun rname =>
  bind (getitem data "time_stamp") (fun ts =>
  bind (resolve ty0) (fun '(ty, unknown) =>
  let log := if unknown then [Unrecognized_event_type ty0] else [] in
  if is_message_posted ty then
    bind (getitem data "content") (fun c =>
    bind (getitem data "user_name") (fun un =>
    bind (getitem data "user_id") (fun uid =>
    bind (getitem data "message_id") (fun mid =>
    Ok ({| _data := data; type := ty; event_id := id; room_id := rid;
           room_name := rname; time_stamp := ts;
           posted := Some {| content := c; user_name := un;
                             user_id := uid; message_id := mid |} |},
        log)))))
  else
    Ok ({| _data := data; type := ty; event_id := id; room_id := rid;
           room_name := rname; time_stamp := ts; posted := None |},
        log))))))).

End Event.

(* ================================================================== *)
(** ** class SEChatWrapper *)

Module SEChatWrapper.

(** What the queue holds: a [(room_id, text)] pair, or the class
    [SystemExit] that [logout] puts as the stop marker.  [room_id] is a
    string, on which the [str(room_id)] of the send loop is the
    identity. *)
Inductive item : Type :=
| Message (room_id text : string)
| SystemExit.

(** The instance.  [thread_started] is the state of [self.thread]: a
    [threading.Thread] can be started once. *)
Record t : Type := {
  site : string;
  _previous : option string;
  message_queue : list item;
  logged_in : bool;
  messages : Z;
  thread_started : bool
}.

Definition set__previous (p : option string) (self : t) : t :=
  {| site := site self; _previous := p;
     message_queue := message_queue self; logged_in := logged_in self;
     messages := messages self; thread_started := thread_started self |}.

Definition set_message_queue (q : list item) (self : t) : t :=
  {| site := site self; _previous := _previous self;
     message_queue := q; logged_in := logged_in self;
     messages := messages self; thread_started := thread_started self |}.

Definition set_logged_in (b : bool) (self : t) : t :=
  {| site := site self; _previous := _previous self;
     message_queue := message_queue self; logged_in := b;
     messages := messages self; thread_started := thread_started self |}.

Definition set_messages (n : Z) (self : t) : t :=
  {| site := site self; _previous := _previous self;
     message_queue := message_queue self; logged_in := logged_in self;
     messages := n; thread_started := thread_started self |}.

Definition set_thread_started (b : bool) (self : t) : t :=
  {| site := site self; _previous := _previous self;
     message_queue := message_queue self; logged_in := logged_in self;
     messages := messages self; thread_started := b |}.

(** [self.message_queue.put(x)] *)
Definition put (x : item) (self : t) : t :=
  set_message_queue (message_queue self ++ [x]) self.

(** The transport's login calls: each returns, or raises what it
    raises. *)
Record SEChatBrowser : Type := {
  loginSEOpenID : string -> string -> result unit;
  loginSECOM : result unit;
  loginChatSE : result unit;
  loginSO : result unit;
  loginMSE : result unit
}.

(** [__init__(self, site="SE")] *)
Definition __init__ (site : string) : t :=
  let site := if String.eqb site "MSO" then "MSE" else site in
  {| site := site; _previous := None; message_queue := [];
     logged_in := false; messages := 0; thread_started := false |}.

(** [self.thread.start()] *)
Definition thread_start (self : t) : result unit * t :=
  if thread_started self then (Raise RuntimeError, self)
  else (Ok tt, set_thread_started true self).

(** The branch of [login] on [self.site] *)
Definition login_site (br : SEChatBrowser) (site : string) : result unit :=
  if String.eqb site "SE" then
    bind (loginSECOM br) (fun _ => loginChatSE br)
  else if String.eqb site "SO" then loginSO br
  else if String.eqb site "MSE" then loginMSE br
  else Raise (ValueError "Unable to login to site: %r" site).

(** [login(self, username, password)]: what the call returns or raises,
    and the instance after it. *)
Definition login (br : SEChatBrowser) (username password : string)
    (self : t) : result unit * t :=
  if logged_in self then (Raise AssertionError, self) else
  match loginSEOpenID br username password with
  | Raise e => (Raise e, self)
  | Ok _ =>
      match login_site br (site self) with
      | Raise e => (Raise e, self)
      | Ok _ => thread_start (set_logged_in true self)
      end
  end.

(** [logout(self)] *)
Definition logout (self : t) : result unit * t :=
  if negb (logged_in self) then (Raise AssertionError, self)
  else (Ok tt, set_logged_in false (put SystemExit self)).

(** [sendMessage(self, room_id, text)] *)
Definition sendMessage (room_id text : string) (self : t) : result unit * t :=
  (Ok tt, put (Message room_id text) self).

(** [__del__(self)] *)
Definition __del__ (self : t) : result unit * t :=
  if logged_in self then (Raise AssertionError, put SystemExit self)
  else (Ok tt, self).

Definition BACKOFF_MULTIPLIER : Z := 2.
Definition BACKOFF_ADDER : Z := 5.

(** What a thread does to the outside: a call
    [br.postSomething(url, {"text": text})] with the value it returned,
    and a call [time.sleep(seconds)]. *)
Inductive effect : Type :=
| Post (url text : string) (response : value)
| Sleep (seconds : Z).

(** How a run of the worker's code ends: it returned, it raised, it
    blocks in [message_queue.get()] on an empty queue, it waits for an
    answer the script does not hold, or the fuel of [_worker] is spent. *)
Inductive status : Type :=
| Returned
| Raised (e : exn)
| BlockedOnGet
| AwaitingResponse
| OutOfFuel.

Record run : Type := {
  ended : status;
  final : t;
  effects : list effect;
  unread : list value
}.

(** [r] with the effects [es] before its own *)
Definition after (es : list effect) (r : run) : run :=
  {| ended := ended r; final := final r;
     effects := es ++ effects r; unread := unread r |}.

(** Lines 121-142 of the send loop: from the response, the new [wait]
    (0 when no branch sets it) and the new [text]. *)
Definition respond (text : string) (response : value) : result (Z * string) :=
  match response with
  | VStr s =>
      match match_TOO_FAST_RE s with
      | Some ds =>
          let wait := int ds in
          let wait := wait * BACKOFF_MULTIPLIER in
          let wait := wait + BACKOFF_ADDER in
          Ok (wait, text)
      | None => Ok (BACKOFF_ADDER, text)
      end
  | VDict d =>
      match lookup "id" d with
      | None => Raise (KeyError "id")
      | Some VNone => Ok (BACKOFF_ADDER, (text ++ " ")%string)
      | Some _ => Ok (0, text)
      end
  | _ => Ok (0, text)
  end.

Definition url_of (room_id : string) : string :=
  ("/chats/" ++ room_id ++ "/messages/new")%string.

(** [while not sent: ...], one response of the script per iteration *)
Fixpoint while_not_sent (script : list value) (self : t)
    (room_id text : string) : run :=
  match script with
  | [] =>
      {| ended := AwaitingResponse; final := self;
         effects := []; unread := [] |}
  | response :: script' =>
      let post := Post (url_of room_id) text response in
      match respond text response with
      | Raise e =>
          {| ended := Raised e; final := self;
             effects := [post]; unread := script' |}
      | Ok (wait, text) =>
          if negb (wait =? 0)
          then after [post; Sleep wait]
                 (while_not_sent script' self room_id text)
          else
            let wait := BACKOFF_ADDER in
            {| ended := Returned; final := set__previous (Some text) self;
               effects := [post; Sleep wait]; unread := script' |}
      end
  end.

(** [if text == self._previous: text = " " + text]: the text the send
    loop starts with.  [_previous] is [None] until a send succeeds, and
    no string equals [None]. *)
Definition duplicate_guard (previous : option string) (text : string) : string :=
  match previous with
  | Some p => if String.eqb text p then (" " ++ text)%string else text
  | None => text
  end.

(** [_actuallySendMessage(self, room_id, text)] *)
Definition _actuallySendMessage (script : list value) (self : t)
    (room_id text : string) : run :=
  let text := duplicate_guard (_previous self) text in
  while_not_sent script self room_id text.

(** The [while True] of [_worker], at most [fuel] iterations *)
Fixpoint worker_loop (fuel : nat) (script : list value) (self : t) : run :=
  match fuel with
  | O => {| ended := OutOfFuel; final := self;
            effects := []; unread := script |}
  | S fuel' =>
      match message_queue self with
      | [] => {| ended := BlockedOnGet; final := self;
                 effects := []; unread := script |}
      | next :: queue =>
          let self := set_message_queue queue self in
          match next with
          | SystemExit =>
              {| ended := Returned; final := self;
                 effects := []; unread := script |}
          | Message room_id text =>
              let self := set_messages (messages self + 1) self in
              let r := _actuallySendMessage script self room_id text in
              match ended r with
              | Returned =>
                  after (effects r) (worker_loop fuel' (unread r) (final r))
              | _ => r
              end
          end
      end
  end.

(** [_worker(self)] *)
Definition _worker (fuel : nat) (script : list value) (self : t) : run :=
  if negb (logged_in self)
  then {| ended := Raised AssertionError; final := self;
          effects := []; unread := script |}
  else worker_loop fuel script self.

(** The list comprehension of [_room_events]: an [Event] for each
    truthy item, in order; the first construction that raises ends it. *)
Fixpoint events_of (room_events_data : list value)
    : result (list Event.t * list Event.log_record) :=
  match room_events_data with
  | [] => Ok ([], [])
  | data :: rest =>
      if truthy data then
        bind (Event.__init__ data) (fun '(ev, log) =>
        bind (events_of rest) (fun '(evs, logs) =>
        Ok (ev :: evs, log ++ logs)))
      else events_of rest
  end.

(** [_room_events(self, activity, room_id)] *)
Definition _room_events (activity : value) (room_id : string)
    : result (list Event.t * list Event.log_record) :=
  bind (get activity ("r" ++ room_id)%string (VDict [])) (fun room_activity =>
  bind (get room_activity "e" (VList [])) (fun room_events_data =>
  bind (iter room_events_data) events_of)).

(** [for event in ...: on_event(event, self)]: the handler is the
    caller's; it is given here with a state [H] of its own, which a call
    leaves changed whether it returns or raises.  The first call that
    raises ends the loop. *)
Fixpoint deliver {H : Type} (on_event : Event.t -> t -> H -> result unit * H)
    (self : t) (events : list Event.t) (h : H) : result unit * H :=
  match events with
  | [] => (Ok tt, h)
  | event :: events' =>
      match on_event event self h with
      | (Ok _, h') => deliver on_event self events' h'
      | (Raise e, h') => (Raise e, h')
      end
  end.

(** The closure [on_activity] that [watchRoom] and [watchRoomSocket]
    both hand to the transport: the list of events is built first, then
    the handler is called on each. *)
Definition on_activity {H : Type} (self : t) (room_id : string)
    (on_event : Event.t -> t -> H -> result unit * H)
    (activity : value) (h : H) : result unit * H :=
  match _room_events activity room_id with
  | Raise e => (Raise e, h)
  | Ok (events, _) => deliver on_event self events h
  end.

End SEChatWrapper.

Import SEChatWrapper.

(* ================================================================== *)
(** ** Vocabulary of the statements *)

(** [k] spaces *)
Fixpoint spaces (k : nat) : string :=
  match k with
  | O => EmptyString
  | S k' => String " "%char (spaces k')
  end.

(** The calls to [postSomething] among the effects, in order *)
Fixpoint posts (es : list effect) : list (string * string * value) :=
  match es with
  | [] => []
  | Post url text response :: es' => (url, text, response) :: posts es'
  | Sleep _ :: es' => posts es'
  end.

Definition posted_texts (es : list effect) : list string :=
  map (fun p => snd (fst p)) (posts es).

(** The sleeps among the effects, in order *)
Fixpoint sleeps (es : list effect) : list Z :=
  match es with
  | [] => []
  | Post _ _ _ :: es' => sleeps es'
  | Sleep w :: es' => w :: sleeps es'
  end.

(** A response the send loop takes for a success: no branch sets
    [wait]. *)
Definition accepted (response : value) : bool :=
  match respond EmptyString response with
  | Ok (wait, _) => wait =? 0
  | Raise _ => false
  end.

(** A text is a rate-limit text reporting [ds] seconds when it starts
    with the sentence of [TOO_FAST_RE], [ds] being the digits in it. *)
Definition rate_limit_text (ds tail : string) : string :=
  (TOO_FAST_RE_before ++ ds ++ TOO_FAST_RE_after ++ tail)%string.

(** The decimal numeral of [w], as [str(w)] writes it *)
Definition decimal (w : nat) : string :=
  NilEmpty.string_of_uint (Nat.to_uint w).

(** The numeric codes of [Event.Types] *)
Definition known_code (n : Z) : bool :=
  existsb (Z.eqb n) (map Event.value_of Event.members).

Definition has_key (key : string) (d : list (string * value)) : bool :=
  match lookup key d with
  | Some _ => true
  | None => false
  end.

(** A raw record as the feed sends it: a dict with an int [event_type]
    and the four other fields every event has, and with the four fields
    of a posted message when its [event_type] is 1. *)
Definition well_formed_record (data : value) : bool :=
  match data with
  | VDict d =>
      match lookup "event_type" d with
      | Some (VInt n) =>
          has_key "id" d && has_key "room_id" d && has_key "room_name" d
          && has_key "time_stamp" d
          && (if n =? 1
              then has_key "content" d && has_key "user_name" d
                   && has_key "user_id" d && has_key "message_id" d
              else true)
      | _ => false
      end
  | _ => false
  end.

(** A call [sendMessage(room_id, text)] *)
Definition call : Type := (string * string)%type.

Definition item_of (c : call) : item := Message (fst c) (snd c).

(** The instance after the calls, in order *)
Definition send_all (calls : list call) (self : t) : t :=
  fold_left (fun s c => snd (sendMessage (fst c) (snd c) s)) calls self.

(** The messages the worker will take before it meets a stop marker *)
Fixpoint pending (queue : list item) : list call :=
  match queue with
  | Message room_id text :: queue' => (room_id, text) :: pending queue'
  | SystemExit :: _ => []
  | [] => []
  end.

(** [text'] is [text] as the send loop may post it: as it is or with
    the guard's leading space, and followed by spaces only. *)
Definition variant (text text' : string) : Prop :=
  exists k, text' = (text ++ spaces k)%string
            \/ text' = ((" " ++ text) ++ spaces k)%string.

(** The post [p] is an attempt to send the call [c]. *)
Definition attempt_for (c : call) (p : string * string * value) : Prop :=
  fst (fst p) = url_of (fst c) /\ variant (snd c) (snd (fst p)).

(** [serves calls ps rest]: the posts [ps] serve the calls in their
    order, one call at a time: attempts for the first call, the last of
    them accepted and no other, then the same for the next call; [rest]
    is the calls left without an accepted post when the posts end. *)
Inductive serves : list call -> list (string * string * value) -> list call -> Prop :=
| serves_stop calls :
    serves calls [] calls
| serves_retry c calls p ps rest :
    attempt_for c p -> accepted (snd p) = false ->
    serves (c :: calls) ps rest ->
    serves (c :: calls) (p :: ps) rest
| serves_next c calls p ps rest :
    attempt_for c p -> accepted (snd p) = true ->
    serves calls ps rest ->
    serves (c :: calls) (p :: ps) rest.

(** A transport whose login calls all return *)
Definition browser_ok : SEChatBrowser :=
  {| loginSEOpenID := fun _ _ => Ok tt; loginSECOM := Ok tt;
     loginChatSE := Ok tt; loginSO := Ok tt; loginMSE := Ok tt |}.

(** A response on which the send loop sleeps and goes round again *)
Definition retried (response : value) : bool :=
  match respond EmptyString response with
  | Ok (wait, _) => negb (wait =? 0)
  | Raise _ => false
  end.

(** Effects in which every post is followed by a sleep of 5 seconds or
    more before the next post; [closed] asks that the last post has its
    sleep too. *)
Fixpoint paced (closed : bool) (es : list effect) : bool :=
  match es with
  | [] => true
  | Post _ _ _ :: Sleep w :: es' => (5 <=? w) && paced closed es'
  | [Post _ _ _] => negb closed
  | _ => false
  end.

(** The first of the keys that the dict [d] does not have *)
Fixpoint first_missing (keys : list string) (d : list (string * value))
    : option string :=
  match keys with
  | [] => None
  | key :: keys' =>
      match lookup key d with
      | Some _ => first_missing keys' d
      | None => Some key
      end
  end.

(** The fields [Event.__init__] reads of every record, and those it
    reads of a posted message, in the order it reads them *)
Definition base_keys : list string :=
  ["event_type"; "id"; "room_id"; "room_name"; "time_stamp"].
Definition message_keys : list string :=
  ["content"; "user_name"; "user_id"; "message_id"].

(** A handler that never raises and keeps the events it was called on,
    latest first *)
Definition recorder (event : Event.t) (self : t) (seen : list Event.t)
    : result unit * list Event.t :=
  (Ok tt, event :: seen).

(** The calls a user makes on an instance *)
Inductive op : Type :=
| Login (br : SEChatBrowser) (username password : string)
| Logout
| SendMessage (room_id text : string).

Definition call_op (o : op) (self : t) : result unit * t :=
  match o with
  | Login br username password => login br username password self
  | Logout => logout self
  | SendMessage room_id text => sendMessage room_id text self
  end.

(** The calls in order: what each returned or raised, and the instance
    after the last *)
Fixpoint session (ops : list op) (self : t) : list (op * result unit) * t :=
  match ops with
  | [] => ([], self)
  | o :: ops' =>
      let (r, self') := call_op o self in
      let (log, self'') := session ops' self' in
      ((o, r) :: log, self'')
  end.

Definition login_returned (entry : op * result unit) : bool :=
  match entry with
  | (Login _ _ _, Ok _) => true
  | _ => false
  end.

(** A response on which the send loop appends a space to the text *)
Definition marks_duplicate (response : value) : bool :=
  match respond EmptyString response with
  | Ok (_, text') => negb (String.eqb text' EmptyString)
  | Raise _ => false
  end.

(** How many of the responses mark a duplicate *)
Definition duplicates (responses : list value) : nat :=
  List.length (filter marks_duplicate responses).

(** Sample records of an activity message for room 101 *)
Definition record_9999 : list (string * value) :=
  [("event_type", VInt 9999); ("id", VInt 10); ("room_id", VInt 101);
   ("room_name", VUnicode "X"); ("time_stamp", VInt 124)].

Definition record_posted : list (string * value) :=
  [("event_type", VInt 1); ("id", VInt 9); ("room_id", VInt 101);
   ("room_name", VUnicode "X"); ("time_stamp", VInt 123);
   ("content", VUnicode "hi"); ("user_name", VUnicode "Bob");
   ("user_id", VInt 5); ("message_id", VInt 77)].

Definition activity_101 : list (string * value) :=
  [("r101",
    VDict [("e", VList [VDict record_posted; VNone; VDict [];
                        VDict record_9999])])].

(* ================================================================== *)
(** ** The pattern and [int] *)

Section Pattern.

Lemma strip_prefix_app (p s : string) :
  strip_prefix p (p ++ s)%string = Some s.
Proof.
  induction p as [|a p IH]; simpl; [reflexivity|].
  now rewrite Ascii.eqb_refl.
Qed.

Lemma strip_prefix_Some (p : string) :
  forall s r, strip_prefix p s = Some r -> s = (p ++ r)%string.
Proof.
  induction p as [|a p IH]; simpl; intros s r H.
  - congruence.
  - destruct s as [|b s]; [discriminate|].
    destruct (Ascii.eqb_spec a b) as [->|]; [|discriminate].
    now rewrite (IH _ _ H).
Qed.

Lemma span_digits_split (s : string) :
  s = (fst (span_digits s) ++ snd (span_digits s))%string
  /\ all_digits (fst (span_digits s)) = true.
Proof.
  induction s as [|c s [IHs IHd]]; simpl; [auto|].
  destruct (is_digit c) eqn:Hc; simpl; [|auto].
  destruct (span_digits s) as [ds tl]; simpl in *.
  rewrite Hc, IHd. split; [f_equal; exact IHs | reflexivity].
Qed.

Lemma span_digits_app (ds tl : string) :
  all_digits ds = true ->
  match tl with
  | EmptyString => True
  | String c _ => is_digit c = false
  end ->
  span_digits (ds ++ tl)%string = (ds, tl).
Proof.
  intros Hds Htl. induction ds as [|c ds IH]; simpl in *.
  - destruct tl as [|c tl]; simpl; [reflexivity|]. now rewrite Htl.
  - apply andb_prop in Hds as [Hc Hds]. now rewrite Hc, (IH Hds).
Qed.

Lemma match_rate_limit_text (ds tail : string) :
  all_digits ds = true -> ds <> EmptyString ->
  match_TOO_FAST_RE (rate_limit_text ds tail) = Some ds.
Proof.
  intros Hds Hne. unfold match_TOO_FAST_RE, rate_limit_text.
  rewrite strip_prefix_app, span_digits_app by (auto; reflexivity).
  destruct ds; [congruence|]. now rewrite strip_prefix_app.
Qed.

Lemma match_TOO_FAST_RE_Some (s ds : string) :
  match_TOO_FAST_RE s = Some ds ->
  all_digits ds = true /\ ds <> EmptyString
  /\ exists tail, s = rate_limit_text ds tail.
Proof.
  unfold match_TOO_FAST_RE, rate_limit_text. intros H.
  destruct (strip_prefix TOO_FAST_RE_before s) as [s1|] eqn:H1; [|discriminate].
  apply strip_prefix_Some in H1.
  destruct (span_digits_split s1) as [Hs1 Hd].
  destruct (span_digits s1) as [ds1 tl]; cbn [fst snd] in *.
  destruct ds1 as [|c ds1]; [discriminate|].
  destruct (strip_prefix TOO_FAST_RE_after tl) as [tail|] eqn:H2; [|discriminate].
  apply strip_prefix_Some in H2. injection H as <-.
  split; [assumption|]. split; [discriminate|].
  exists tail. now rewrite H1, Hs1, H2.
Qed.

Lemma digit_value_nonneg (c : ascii) : is_digit c = true -> 0 <= digit_value c.
Proof.
  unfold is_digit, digit_value. intros H.
  apply andb_prop in H as [H _]. apply Nat.leb_le in H. lia.
Qed.

Lemma int_from_nonneg (ds : string) :
  forall acc, all_digits ds = true -> 0 <= acc -> 0 <= int_from acc ds.
Proof.
  induction ds as [|c ds IH]; simpl; intros acc H Hacc; [assumption|].
  apply andb_prop in H as [Hc Hds].
  apply IH; [assumption|]. pose proof (digit_value_nonneg c Hc). lia.
Qed.

Lemma int_nonneg (ds : string) : all_digits ds = true -> 0 <= int ds.
Proof. intros H. now apply int_from_nonneg. Qed.

Lemma int_from_uint (d : Decimal.uint) :
  forall acc,
    int_from (Z.of_nat acc) (NilEmpty.string_of_uint d)
    = Z.of_nat (Nat.of_uint_acc d acc).
Proof.
  induction d; intros acc; cbn [NilEmpty.string_of_uint int_from Nat.of_uint_acc];
    [reflexivity|..];
    rewrite <- IHd; f_equal; rewrite Nat.tail_mul_spec; unfold digit_value;
    match goal with
    | |- context [nat_of_ascii ?c] =>
        let v := eval vm_compute in (Z.of_nat (nat_of_ascii c)) in
        change (Z.of_nat (nat_of_ascii c)) with v
    end; lia.
Qed.

Lemma all_digits_uint (d : Decimal.uint) :
  all_digits (NilEmpty.string_of_uint d) = true.
Proof. induction d; simpl; auto. Qed.

(** [int] reads a decimal numeral back. *)
Lemma int_decimal (w : nat) : int (decimal w) = Z.of_nat w.
Proof.
  unfold int, decimal. change 0 with (Z.of_nat 0).
  rewrite int_from_uint. fold (Nat.of_uint (Nat.to_uint w)).
  now rewrite DecimalNat.Unsigned.of_to.
Qed.

Lemma decimal_digits (w : nat) :
  all_digits (decimal w) = true /\ decimal w <> EmptyString.
Proof.
  split; [apply all_digits_uint|].
  intros E. pose proof (int_decimal w) as I.
  assert (NilEmpty.uint_of_string (decimal w) = Some (Nat.to_uint w)) as U
    by apply NilEmpty.usu.
  rewrite E in U. simpl in U. injection U as U.
  assert (Nat.of_uint (Nat.to_uint w) = Nat.of_uint Decimal.Nil) as W
    by now rewrite <- U.
  rewrite DecimalNat.Unsigned.of_to in W. subst w. discriminate E.
Qed.

End Pattern.

(* ================================================================== *)
(** ** The send loop, one response at a time *)

Section SendLoop.

Variables (script : list value) (self : t) (room_id text : string).

Lemma after_nil (r : run) : after [] r = r.
Proof. now destruct r. Qed.

Lemma after_app (es1 es2 : list effect) (r : run) :
  after es1 (after es2 r) = after (es1 ++ es2) r.
Proof. unfold after; simpl. now rewrite app_assoc. Qed.

Lemma ended_after (es : list effect) (r : run) : ended (after es r) = ended r.
Proof. reflexivity. Qed.

(** A response that sets [wait]: the loop sleeps that long and goes
    round again with the text the branch left. *)
Lemma while_not_sent_retry (response : value) (wait : Z) (text' : string) :
  respond text response = Ok (wait, text') -> wait <> 0 ->
  while_not_sent (response :: script) self room_id text
  = after [Post (url_of room_id) text response; Sleep wait]
      (while_not_sent script self room_id text').
Proof.
  intros H Hw. simpl. rewrite H.
  destruct (Z.eqb_spec wait 0); [contradiction|reflexivity].
Qed.

(** A response that leaves [wait] at 0 ends the loop. *)
Lemma while_not_sent_success (response : value) (text' : string) :
  respond text response = Ok (0, text') ->
  while_not_sent (response :: script) self room_id text
  = {| ended := Returned; final := set__previous (Some text') self;
       effects := [Post (url_of room_id) text response; Sleep BACKOFF_ADDER];
       unread := script |}.
Proof. intros H. simpl. now rewrite H. Qed.

Lemma respond_rate_limit (ds tail : string) :
  all_digits ds = true -> ds <> EmptyString ->
  respond text (VStr (rate_limit_text ds tail)) = Ok (int ds * 2 + 5, text).
Proof.
  intros Hds Hne. unfold respond. now rewrite match_rate_limit_text.
Qed.

Lemma respond_unknown (s : string) :
  match_TOO_FAST_RE s = None -> respond text (VStr s) = Ok (5, text).
Proof. intros H. unfold respond. now rewrite H. Qed.

(** What [respond] computes for [wait] does not depend on the text. *)
Lemma respond_wait (response : value) (t1 t2 : string) :
  match respond t1 response, respond t2 response with
  | Ok (w1, _), Ok (w2, _) => w1 = w2
  | Raise e1, Raise e2 => e1 = e2
  | _, _ => False
  end.
Proof.
  destruct response as [| | |s| |l|d]; simpl; auto.
  - destruct (match_TOO_FAST_RE s); reflexivity.
  - destruct (lookup "id" d) as [[]|]; reflexivity.
Qed.

Lemma accepted_respond (response : value) :
  accepted response = true -> respond text response = Ok (0, text).
Proof.
  unfold accepted, respond.
  destruct response as [| | |s| |l|d]; auto.
  - destruct (match_TOO_FAST_RE s) as [ds|] eqn:Hm; [|discriminate].
    apply match_TOO_FAST_RE_Some in Hm as [Hds _].
    pose proof (int_nonneg ds Hds) as Hnn. intros Hw. apply Z.eqb_eq in Hw.
    unfold BACKOFF_MULTIPLIER, BACKOFF_ADDER in Hw. lia.
  - destruct (lookup "id" d) as [[]|]; auto; discriminate.
Qed.

Lemma respond_accepted (response : value) (text' : string) :
  respond text response = Ok (0, text') ->
  accepted response = true /\ text' = text.
Proof.
  intros H. pose proof (respond_wait response text EmptyString) as Hw.
  unfold accepted. rewrite H in Hw.
  destruct (respond EmptyString response) as [[w t0]|]; [|contradiction].
  subst w. split; [reflexivity|].
  revert H. unfold respond.
  destruct response as [| | |s| |l|d]; try congruence.
  - destruct (match_TOO_FAST_RE s); congruence.
  - destruct (lookup "id" d) as [[]|]; try congruence.
    unfold BACKOFF_ADDER. discriminate.
Qed.

End SendLoop.

(** One iteration of the worker on a queue that starts with a message *)
Lemma worker_loop_message (fuel : nat) (script : list value) (self : t)
    (room_id text : string) (queue : list item) :
  message_queue self = Message room_id text :: queue ->
  worker_loop (S fuel) script self
  = let r := while_not_sent script
               (set_messages (messages self + 1) (set_message_queue queue self))
               room_id (duplicate_guard (_previous self) text) in
    match ended r with
    | Returned => after (effects r) (worker_loop fuel (unread r) (final r))
    | _ => r
    end.
Proof. intros Hq. cbn [worker_loop]. rewrite Hq. reflexivity. Qed.

(* ================================================================== *)
(** ** The backoff controller *)

(** C3.  When the response to an attempt is a rate-limit text reporting
    [w] seconds ([w] being the value [int ds] of its digits [ds], which
    is [w] when [ds] is the decimal numeral of [w]), the loop sleeps
    exactly [w * 2 + 5] seconds and goes round again with the same,
    unmodified text. *)
Theorem rate_limited_wait_and_retry
    (ds tail : string) (script : list value) (self : t)
    (room_id text : string) :
  all_digits ds = true -> ds <> EmptyString ->
  BACKOFF_MULTIPLIER = 2 /\ BACKOFF_ADDER = 5 /\
  respond text (VStr (rate_limit_text ds tail)) = Ok (int ds * 2 + 5, text) /\
  while_not_sent (VStr (rate_limit_text ds tail) :: script) self room_id text
  = after [Post (url_of room_id) text (VStr (rate_limit_text ds tail));
           Sleep (int ds * 2 + 5)]
      (while_not_sent script self room_id text) /\
  (forall w : nat, ds = decimal w -> int ds = Z.of_nat w).
Proof.
  intros Hds Hne. split; [reflexivity|]. split; [reflexivity|].
  pose proof (respond_rate_limit text ds tail Hds Hne) as Hr.
  split; [exact Hr|]. split; [|intros w ->; apply int_decimal].
  apply while_not_sent_retry; [exact Hr|].
  pose proof (int_nonneg ds Hds). lia.
Qed.

Lemma rate_limited_wait_and_retry_witness :
  all_digits "30" = true /\ "30" <> EmptyString /\
  sleeps (effects (while_not_sent
    [VStr "You can perform this action again in 30 seconds."; VNone]
    (__init__ "SE") "17" "hello")) = [65; 5] /\
  posted_texts (effects (while_not_sent
    [VStr "You can perform this action again in 30 seconds."; VNone]
    (__init__ "SE") "17" "hello")) = ["hello"; "hello"].
Proof.
  split; [reflexivity|]. split; [discriminate|].
  destruct (rate_limited_wait_and_retry "30" "." [VNone] (__init__ "SE")
              "17" "hello" eq_refl ltac:(discriminate)) as (_ & _ & _ & E & _).
  change (VStr (rate_limit_text "30" "."))
    with (VStr "You can perform this action again in 30 seconds.") in E.
  rewrite E. split; reflexivity.
Defined.

(** C4.  A dict response whose ["id"] is [None] is not taken for a
    success: the loop sleeps exactly 5 seconds and goes round again with
    one space appended to the text [T] it had; the next attempt posts
    [T + " "]. *)
Theorem null_id_is_duplicate
    (d : list (string * value)) (script : list value) (self : t)
    (room_id text : string) :
  lookup "id" d = Some VNone ->
  accepted (VDict d) = false /\
  while_not_sent (VDict d :: script) self room_id text
  = after [Post (url_of room_id) text (VDict d); Sleep 5]
      (while_not_sent script self room_id (text ++ " ")%string) /\
  forall response script',
    script = response :: script' ->
    exists es,
      effects (while_not_sent (VDict d :: script) self room_id text)
      = Post (url_of room_id) text (VDict d) :: Sleep 5
        :: Post (url_of room_id) (text ++ " ")%string response :: es.
Proof.
  intros Hid.
  assert (Hr : respond text (VDict d) = Ok (5, (text ++ " ")%string))
    by (unfold respond; now rewrite Hid).
  assert (E : while_not_sent (VDict d :: script) self room_id text
              = after [Post (url_of room_id) text (VDict d); Sleep 5]
                  (while_not_sent script self room_id (text ++ " ")%string))
    by (apply while_not_sent_retry; [exact Hr|discriminate]).
  split; [unfold accepted, respond; now rewrite Hid|].
  split; [exact E|].
  intros response script' ->. rewrite E. simpl.
  destruct (respond (text ++ " ")%string response) as [[w t']|e].
  - destruct (negb (w =? 0)); simpl; eauto.
  - simpl; eauto.
Qed.

Lemma null_id_is_duplicate_witness :
  lookup "id" [("id", VNone)] = Some VNone /\
  posted_texts (effects (while_not_sent
    [VDict [("id", VNone)]; VDict [("id", VInt 7)]]
    (__init__ "SE") "17" "hello")) = ["hello"; "hello "] /\
  sleeps (effects (while_not_sent
    [VDict [("id", VNone)]; VDict [("id", VInt 7)]]
    (__init__ "SE") "17" "hello")) = [5; 5].
Proof.
  split; [reflexivity|].
  destruct (null_id_is_duplicate [("id", VNone)] [VDict [("id", VInt 7)]]
              (__init__ "SE") "17" "hello" eq_refl) as (_ & E & _).
  rewrite E. split; reflexivity.
Defined.

(** C10.  A response that is neither a [str] nor a dict ends the send
    loop as a success: no retry, the current text becomes [_previous],
    the sleep is the fixed 5 seconds, and only then does the worker take
    the next item of the queue. *)
Theorem other_response_is_success
    (response : value) (script : list value) (self : t)
    (room_id text : string) :
  (forall s, response <> VStr s) -> (forall d, response <> VDict d) ->
  accepted response = true /\
  while_not_sent (response :: script) self room_id text
  = {| ended := Returned; final := set__previous (Some text) self;
       effects := [Post (url_of room_id) text response; Sleep 5];
       unread := script |} /\
  forall fuel queue text0,
    message_queue self = Message room_id text0 :: queue ->
    text = duplicate_guard (_previous self) text0 ->
    worker_loop (S fuel) (response :: script) self
    = after [Post (url_of room_id) text response; Sleep 5]
        (worker_loop fuel script
           (set__previous (Some text)
              (set_messages (messages self + 1)
                 (set_message_queue queue self)))).
Proof.
  intros Hs Hd.
  assert (Hr : forall t0, respond t0 response = Ok (0, t0)).
  { intros t0. destruct response; try reflexivity.
    - now destruct (Hs s). - now destruct (Hd d). }
  split; [unfold accepted; now rewrite Hr|].
  split; [now apply while_not_sent_success|].
  intros fuel queue text0 Hq ->.
  rewrite (worker_loop_message _ _ _ _ _ _ Hq). cbv zeta.
  rewrite (while_not_sent_success _ _ _ _ _ _ (Hr _)). reflexivity.
Qed.

Lemma other_response_is_success_witness :
  (forall s, VNone <> VStr s) /\ (forall d, VNone <> VDict d) /\
  while_not_sent [VNone] (__init__ "SE") "17" "hello"
  = {| ended := Returned; final := set__previous (Some "hello") (__init__ "SE");
       effects := [Post (url_of "17") "hello" VNone; Sleep 5];
       unread := [] |}.
Proof.
  split; [discriminate|]. split; [discriminate|].
  apply (other_response_is_success VNone [] (__init__ "SE") "17" "hello");
    discriminate.
Defined.

Lemma rejected_respond (text : string) (response : value) (wait : Z) (text' : string) :
  respond text response = Ok (wait, text') -> wait <> 0 ->
  accepted response = false.
Proof.
  intros H Hw. pose proof (respond_wait response text EmptyString) as E.
  unfold accepted. rewrite H in E.
  destruct (respond EmptyString response) as [[w t0]|]; [|reflexivity].
  subst w. now apply Z.eqb_neq.
Qed.

(** The loop returns on an accepted response only, the first of the
    script, and leaves what follows it unread. *)
Lemma while_not_sent_Returned (script : list value) (self : t) (room_id : string) :
  forall text,
    ended (while_not_sent script self room_id text) = Returned ->
    exists before response,
      script = before ++ response
                 :: unread (while_not_sent script self room_id text)
      /\ accepted response = true
      /\ Forall (fun x => accepted x = false) before.
Proof.
  induction script as [|response script IH]; intros text; simpl; [discriminate|].
  destruct (respond text response) as [[w t']|e] eqn:Hr; [|discriminate].
  destruct (Z.eqb_spec w 0) as [->|Hw]; simpl.
  - intros _. exists [], response. simpl.
    split; [reflexivity|]. split; [|constructor].
    now apply respond_accepted in Hr.
  - intros H. destruct (IH t' H) as (before & resp & E & Ha & Hb).
    exists (response :: before), resp. simpl.
    split; [now rewrite <- E|]. split; [assumption|].
    constructor; [|assumption]. eapply rejected_respond; eauto.
Qed.

Lemma while_not_sent_unknown (fails : list string) (script : list value)
    (self : t) (room_id text : string) :
  Forall (fun s => match_TOO_FAST_RE s = None) fails ->
  while_not_sent (map VStr fails ++ script) self room_id text
  = after (flat_map (fun s => [Post (url_of room_id) text (VStr s); Sleep 5])
             fails)
      (while_not_sent script self room_id text).
Proof.
  induction 1 as [|s fails Hs _ IH].
  - simpl. now rewrite after_nil.
  - cbn [map app flat_map].
    rewrite (while_not_sent_retry _ _ _ _ _ 5 text (respond_unknown text s Hs))
      by discriminate.
    rewrite IH, after_app. reflexivity.
Qed.

Lemma posted_texts_flat_map (url text : string) (fails : list string) :
  posted_texts (flat_map (fun s => [Post url text (VStr s); Sleep 5]) fails)
  = map (fun _ => text) fails.
Proof.
  unfold posted_texts. induction fails; simpl; [reflexivity|].
  f_equal. exact IHfails.
Qed.

Lemma sleeps_flat_map (url text : string) (fails : list string) :
  sleeps (flat_map (fun s => [Post url text (VStr s); Sleep 5]) fails)
  = map (fun _ => 5) fails.
Proof. induction fails; simpl; [reflexivity|]. f_equal. exact IHfails. Qed.

(** C6.  String responses that do not match the rate-limit pattern never
    end the send loop, however many come: each attempt posts the
    identical text and sleeps exactly 5 seconds, after [n] of them the
    loop and the worker are still running, waiting for the next answer;
    and the loop returns only on an accepted response. *)
Theorem unknown_failure_retries
    (fails : list string) (script : list value) (self : t)
    (room_id text : string) :
  Forall (fun s => match_TOO_FAST_RE s = None) fails ->
  while_not_sent (map VStr fails ++ script) self room_id text
  = after (flat_map (fun s => [Post (url_of room_id) text (VStr s); Sleep 5])
             fails)
      (while_not_sent script self room_id text) /\
  (forall fuel queue text0,
     message_queue self = Message room_id text0 :: queue ->
     text = duplicate_guard (_previous self) text0 ->
     ended (worker_loop (S fuel) (map VStr fails) self) = AwaitingResponse /\
     posted_texts (effects (worker_loop (S fuel) (map VStr fails) self))
     = map (fun _ => text) fails /\
     sleeps (effects (worker_loop (S fuel) (map VStr fails) self))
     = map (fun _ => 5) fails) /\
  (ended (while_not_sent script self room_id text) = Returned ->
   exists before response,
     script = before ++ response
                :: unread (while_not_sent script self room_id text)
     /\ accepted response = true
     /\ Forall (fun x => accepted x = false) before).
Proof.
  intros Hf. split; [now apply while_not_sent_unknown|].
  split; [|apply while_not_sent_Returned].
  intros fuel queue text0 Hq ->.
  rewrite (worker_loop_message _ _ _ _ _ _ Hq). cbv zeta.
  pose proof (while_not_sent_unknown fails []
                (set_messages (messages self + 1) (set_message_queue queue self))
                room_id (duplicate_guard (_previous self) text0) Hf) as E.
  rewrite app_nil_r in E. rewrite E. cbn [while_not_sent ended after effects].
  rewrite app_nil_r.
  split; [reflexivity|].
  split; [apply posted_texts_flat_map|apply sleeps_flat_map].
Qed.

Lemma unknown_failure_retries_witness :
  Forall (fun s => match_TOO_FAST_RE s = None)
    ["Oops"; "It is too early to do that"; ""] /\
  posted_texts (effects (while_not_sent
    [VStr "Oops"; VStr "It is too early to do that"; VStr ""; VInt 1]
    (__init__ "SE") "17" "hello"))
  = ["hello"; "hello"; "hello"; "hello"] /\
  sleeps (effects (while_not_sent
    [VStr "Oops"; VStr "It is too early to do that"; VStr ""; VInt 1]
    (__init__ "SE") "17" "hello"))
  = [5; 5; 5; 5].
Proof.
  assert (H : Forall (fun s => match_TOO_FAST_RE s = None)
                ["Oops"; "It is too early to do that"; ""])
    by (repeat constructor).
  split; [exact H|].
  destruct (unknown_failure_retries
              ["Oops"; "It is too early to do that"; ""] [VInt 1]
              (__init__ "SE") "17" "hello" H) as (E & _).
  cbn [map app] in E. rewrite E. split; reflexivity.
Defined.

(* ================================================================== *)
(** ** The duplicate guard *)

Lemma append_assoc (a b c : string) :
  ((a ++ b) ++ c)%string = (a ++ b ++ c)%string.
Proof. induction a as [|x a IH]; simpl; [reflexivity|]. now rewrite IH. Qed.

Lemma append_nil_r (a : string) : (a ++ "")%string = a.
Proof. induction a as [|x a IH]; simpl; [reflexivity|]. now rewrite IH. Qed.

Lemma spaces_snoc (k : nat) : (spaces k ++ " ")%string = spaces (S k).
Proof. induction k as [|k IH]; simpl; [reflexivity|]. now rewrite IH. Qed.

(** The branches of the loop leave the text alone or append one space. *)
Lemma respond_text (text : string) (response : value) (wait : Z) (text' : string) :
  respond text response = Ok (wait, text') ->
  text' = text \/ text' = (text ++ " ")%string.
Proof.
  unfold respond. destruct response as [| | |s| |l|d]; try (intros [= _ <-]; auto).
  - destruct (match_TOO_FAST_RE s); intros [= _ <-]; auto.
  - destruct (lookup "id" d) as [[]|]; intros [= _ <-]; auto.
Qed.

(** Every text the loop posts is the one it started with, followed by
    spaces only. *)
Lemma while_not_sent_texts (script : list value) (self : t) (room_id T : string) :
  forall k0,
    Forall (fun t => exists k, t = (T ++ spaces k)%string)
      (posted_texts
         (effects (while_not_sent script self room_id (T ++ spaces k0)%string))).
Proof.
  unfold posted_texts.
  induction script as [|response script IH]; intros k0; simpl; [constructor|].
  destruct (respond (T ++ spaces k0)%string response) as [[w t']|e] eqn:Hr.
  - assert (Ht : exists k1, t' = (T ++ spaces k1)%string).
    { destruct (respond_text _ _ _ _ Hr) as [->| ->]; [now exists k0|].
      exists (S k0). now rewrite append_assoc, spaces_snoc. }
    destruct Ht as [k1 ->].
    destruct (negb (w =? 0)); simpl.
    + constructor; [now exists k0|apply IH].
    + constructor; [now exists k0|constructor].
  - simpl. constructor; [now exists k0|constructor].
Qed.

(** The first text the loop posts is the one it was started with. *)
Lemma while_not_sent_first (response : value) (script : list value) (self : t)
    (room_id text : string) :
  exists rest,
    posted_texts (effects (while_not_sent (response :: script) self room_id text))
    = text :: rest.
Proof.
  unfold posted_texts. simpl.
  destruct (respond text response) as [[w t']|e]; [|simpl; eauto].
  destruct (negb (w =? 0)); simpl; eauto.
Qed.

(** When the loop returns, [_previous] is the text of its last post. *)
Lemma while_not_sent_previous (script : list value) (self : t) (room_id : string) :
  forall text,
    ended (while_not_sent script self room_id text) = Returned ->
    exists texts t,
      posted_texts (effects (while_not_sent script self room_id text))
      = texts ++ [t]
      /\ _previous (final (while_not_sent script self room_id text)) = Some t.
Proof.
  unfold posted_texts.
  induction script as [|response script IH]; intros text; simpl; [discriminate|].
  destruct (respond text response) as [[w t']|e] eqn:Hr; [|discriminate].
  destruct (Z.eqb_spec w 0) as [->|Hw]; simpl.
  - intros _. exists [], text. split; [reflexivity|].
    apply respond_accepted in Hr as [_ ->]. reflexivity.
  - intros H. destruct (IH t' H) as (texts & t & E & Hp).
    exists (text :: texts), t. simpl. now rewrite E.
Qed.

(** C5.  The text of a dequeued message gets one leading space if and
    only if it equals [_previous], the text recorded by the last send
    that succeeded (the text of that send's last post).  The space is put
    once, before the first attempt: the first post carries the guarded
    text and every retry carries that same text followed by spaces only. *)
Theorem duplicate_guard_once
    (response : value) (script : list value) (self : t)
    (room_id text : string) :
  (_previous self = Some text ->
   exists rest,
     posted_texts
       (effects (_actuallySendMessage (response :: script) self room_id text))
     = (" " ++ text)%string :: rest
     /\ Forall (fun t => exists k, t = ((" " ++ text) ++ spaces k)%string) rest) /\
  (_previous self <> Some text ->
   exists rest,
     posted_texts
       (effects (_actuallySendMessage (response :: script) self room_id text))
     = text :: rest
     /\ Forall (fun t => exists k, t = (text ++ spaces k)%string) rest) /\
  (ended (_actuallySendMessage (response :: script) self room_id text) = Returned ->
   exists texts t,
     posted_texts
       (effects (_actuallySendMessage (response :: script) self room_id text))
     = texts ++ [t]
     /\ _previous
          (final (_actuallySendMessage (response :: script) self room_id text))
        = Some t).
Proof.
  unfold _actuallySendMessage.
  assert (G : forall T,
             exists rest,
               posted_texts
                 (effects (while_not_sent (response :: script) self room_id T))
               = T :: rest
               /\ Forall (fun t => exists k, t = (T ++ spaces k)%string) rest).
  { intros T. destruct (while_not_sent_first response script self room_id T)
      as [rest E].
    exists rest. split; [exact E|].
    pose proof (while_not_sent_texts (response :: script) self room_id T 0) as F.
    simpl spaces in F. rewrite append_nil_r, E in F. now inversion F. }
  split; [|split].
  - intros Hp. rewrite Hp. simpl. rewrite String.eqb_refl. apply G.
  - intros Hp. replace (duplicate_guard (_previous self) text) with text; [apply G|].
    unfold duplicate_guard. destruct (_previous self) as [p|]; [|reflexivity].
    destruct (String.eqb_spec text p); [subst; congruence|reflexivity].
  - apply while_not_sent_previous.
Qed.

Lemma duplicate_guard_once_witness :
  _previous (set__previous (Some "hello") (__init__ "SE")) = Some "hello" /\
  posted_texts
    (effects (_actuallySendMessage
                [VDict [("id", VNone)]; VStr "?"; VDict [("id", VInt 8)]]
                (set__previous (Some "hello") (__init__ "SE")) "17" "hello"))
  = [" hello"; " hello "; " hello "] /\
  exists rest,
    posted_texts
      (effects (_actuallySendMessage
                  [VDict [("id", VNone)]; VStr "?"; VDict [("id", VInt 8)]]
                  (set__previous (Some "hello") (__init__ "SE")) "17" "hello"))
    = " hello" :: rest
    /\ Forall (fun t => exists k, t = ((" " ++ "hello") ++ spaces k)%string) rest.
Proof.
  split; [reflexivity|]. split; [reflexivity|].
  apply (duplicate_guard_once (VDict [("id", VNone)])
           [VStr "?"; VDict [("id", VInt 8)]]
           (set__previous (Some "hello") (__init__ "SE")) "17" "hello").
  reflexivity.
Defined.

(* ================================================================== *)
(** ** The event classifier *)

Lemma find_value_by_value (n : Z) (l : list Event.Types) :
  match Event.find_value n (map (fun x => (Event.value_of x, x)) l) with
  | Some x => Event.value_of x = n
  | None => existsb (Z.eqb n) (map Event.value_of l) = false
  end.
Proof.
  induction l as [|x l IH]; simpl; [reflexivity|].
  rewrite (Z.eqb_sym n). destruct (Z.eqb_spec (Event.value_of x) n); simpl; auto.
Qed.

Lemma find_value_unknown (n : Z) :
  known_code n = false -> Event.find_value n Event.by_value = None.
Proof.
  unfold known_code, Event.by_value. intros H.
  pose proof (find_value_by_value n Event.members) as F.
  destruct (Event.find_value n _) as [x|]; [|reflexivity].
  assert (In (Event.value_of x) (map Event.value_of Event.members)) as Hin.
  { apply in_map. destruct x; simpl; tauto. }
  assert (existsb (Z.eqb n) (map Event.value_of Event.members) = true) as E.
  { apply existsb_exists. exists (Event.value_of x). split; [assumption|].
    now apply Z.eqb_eq. }
  congruence.
Qed.

Lemma init_data (data : value) (ev : Event.t) (log : list Event.log_record) :
  Event.__init__ data = Ok (ev, log) -> Event._data ev = data.
Proof.
  unfold Event.__init__.
  destruct (negb (truthy data)); [discriminate|].
  destruct (getitem data "event_type") as [ty0|]; cbn [bind]; [|discriminate].
  destruct (getitem data "id") as [id|]; cbn [bind]; [|discriminate].
  destruct (getitem data "room_id") as [rid|]; cbn [bind]; [|discriminate].
  destruct (getitem data "room_name") as [rname|]; cbn [bind]; [|discriminate].
  destruct (getitem data "time_stamp") as [ts|]; cbn [bind]; [|discriminate].
  destruct (Event.resolve ty0) as [[ty unknown]|]; cbn [bind]; [|discriminate].
  destruct (Event.is_message_posted ty); [|now intros [= <- _]].
  destruct (getitem data "content") as [c|]; cbn [bind]; [|discriminate].
  destruct (getitem data "user_name") as [un|]; cbn [bind]; [|discriminate].
  destruct (getitem data "user_id") as [uid|]; cbn [bind]; [|discriminate].
  destruct (getitem data "message_id") as [mid|]; cbn [bind]; [|discriminate].
  now intros [= <- _].
Qed.

Lemma has_key_lookup (key : string) (d : list (string * value)) :
  has_key key d = true -> exists v, lookup key d = Some v.
Proof. unfold has_key. destruct (lookup key d); [eauto|discriminate]. Qed.

Lemma well_formed_truthy (data : value) :
  well_formed_record data = true -> truthy data = true.
Proof.
  destruct data as [| | | | | |d]; try discriminate.
  destruct d; [discriminate|reflexivity].
Qed.

Lemma getitem_has_key (key : string) (d : list (string * value)) :
  has_key key d = true -> exists v, getitem (VDict d) key = Ok v.
Proof.
  intros H. apply has_key_lookup in H as [v H].
  exists v. unfold getitem. now rewrite H.
Qed.

(** A well-formed record builds an event. *)
Lemma init_well_formed (data : value) :
  well_formed_record data = true ->
  exists ev log, Event.__init__ data = Ok (ev, log).
Proof.
  intros W. pose proof (well_formed_truthy data W) as T.
  unfold Event.__init__. rewrite T. cbn [negb].
  destruct data as [| | | | | |d]; try discriminate.
  unfold well_formed_record in W.
  destruct (lookup "event_type" d) as [[| |n| | | |]|] eqn:Ety; try discriminate.
  apply andb_prop in W as [W Hm].
  apply andb_prop in W as [W Hts].
  apply andb_prop in W as [W Hrn].
  apply andb_prop in W as [Hid Hrid].
  apply getitem_has_key in Hid as [? ->], Hrid as [? ->], Hrn as [? ->],
      Hts as [? ->].
  replace (getitem (VDict d) "event_type") with (Ok (VInt n))
    by (unfold getitem; now rewrite Ety).
  cbn [bind Event.resolve].
  pose proof (find_value_by_value n Event.members) as F.
  fold Event.by_value in F.
  assert (M : forall ty, Event.is_message_posted ty = true -> n = 1 ->
     exists c un uid mid,
       getitem (VDict d) "content" = Ok c /\ getitem (VDict d) "user_name" = Ok un
       /\ getitem (VDict d) "user_id" = Ok uid
       /\ getitem (VDict d) "message_id" = Ok mid).
  { intros ty _ ->. change (1 =? 1) with true in Hm. cbv iota in Hm.
    apply andb_prop in Hm as [Hm H4].
    apply andb_prop in Hm as [Hm H3].
    apply andb_prop in Hm as [H1 H2].
    apply getitem_has_key in H1 as [c ?], H2 as [un ?], H3 as [uid ?],
        H4 as [mid ?].
    now exists c, un, uid, mid. }
  destruct (Event.find_value n Event.by_value) as [m|]; cbn [bind].
  - destruct (Event.is_message_posted (Event.Member m)) eqn:P; [|eauto].
    destruct (M _ P) as (c & un & uid & mid & -> & -> & -> & ->).
    + cbn [Event.is_message_posted] in P. apply Z.eqb_eq in P.
      rewrite F in P. exact P.
    + cbn [bind]. eauto.
  - destruct (Event.is_message_posted (Event.Plain (VInt n))) eqn:P; [|eauto].
    destruct (M _ P) as (c & un & uid & mid & -> & -> & -> & ->).
    + cbn [Event.is_message_posted] in P. now apply Z.eqb_eq in P.
    + cbn [bind]. eauto.
Qed.

(** A record of an unrecognized type builds an event of that plain
    type, and the construction logs it. *)
Lemma init_unknown (d : list (string * value)) (n : Z) :
  well_formed_record (VDict d) = true ->
  lookup "event_type" d = Some (VInt n) ->
  known_code n = false ->
  exists ev,
    Event.__init__ (VDict d) = Ok (ev, [Event.Unrecognized_event_type (VInt n)])
    /\ Event.type ev = Event.Plain (VInt n)
    /\ Event.posted ev = None.
Proof.
  intros W Ety K. pose proof (well_formed_truthy _ W) as T.
  unfold Event.__init__. rewrite T. cbn [negb].
  unfold well_formed_record in W. rewrite Ety in W.
  apply andb_prop in W as [W _].
  apply andb_prop in W as [W Hts].
  apply andb_prop in W as [W Hrn].
  apply andb_prop in W as [Hid Hrid].
  apply getitem_has_key in Hid as [? ->], Hrid as [? ->], Hrn as [? ->],
      Hts as [? ->].
  replace (getitem (VDict d) "event_type") with (Ok (VInt n))
    by (unfold getitem; now rewrite Ety).
  cbn [bind Event.resolve]. rewrite (find_value_unknown n K). cbn [bind].
  assert ((n =? 1) = false) as N1.
  { destruct (Z.eqb_spec n 1) as [->|]; [discriminate K|reflexivity]. }
  cbn [Event.is_message_posted]. rewrite N1.
  eexists. split; [reflexivity|]. split; reflexivity.
Qed.

Lemma events_of_app (a b : list value) :
  events_of (a ++ b)
  = bind (events_of a) (fun '(evs1, log1) =>
    bind (events_of b) (fun '(evs2, log2) =>
    Ok (evs1 ++ evs2, log1 ++ log2))).
Proof.
  induction a as [|data a IH]; cbn [app events_of bind].
  - now destruct (events_of b) as [[evs2 log2]|].
  - destruct (truthy data); [|exact IH].
    rewrite IH. destruct (Event.__init__ data) as [[ev log]|]; cbn [bind];
      [|reflexivity].
    destruct (events_of a) as [[evs1 log1]|]; cbn [bind]; [|reflexivity].
    destruct (events_of b) as [[evs2 log2]|]; cbn [bind]; [|reflexivity].
    now rewrite app_assoc.
Qed.

Lemma events_of_Forall2 (l : list value) :
  forall evs logs,
    events_of l = Ok (evs, logs) ->
    Forall2 (fun data ev => exists log, Event.__init__ data = Ok (ev, log))
      (filter truthy l) evs.
Proof.
  induction l as [|data l IH]; cbn [events_of filter]; intros evs logs H.
  - injection H as <- <-. constructor.
  - destruct (truthy data); [|eauto].
    destruct (Event.__init__ data) as [[ev log]|] eqn:E; cbn [bind] in H;
      [|discriminate].
    destruct (events_of l) as [[evs' logs']|]; cbn [bind] in H; [|discriminate].
    injection H as <- <-. constructor; eauto.
Qed.

Lemma Forall2_init_data (l : list value) (evs : list Event.t) :
  Forall2 (fun data ev => exists log, Event.__init__ data = Ok (ev, log)) l evs ->
  map Event._data evs = l.
Proof.
  induction 1 as [|data ev l evs [log E] _ IH]; simpl; [reflexivity|].
  now rewrite IH, (init_data _ _ _ E).
Qed.

Lemma events_of_total (l : list value) :
  Forall (fun data => well_formed_record data = true) (filter truthy l) ->
  exists evs logs, events_of l = Ok (evs, logs).
Proof.
  induction l as [|data l IH]; cbn [events_of filter]; intros H; [eauto|].
  destruct (truthy data); [|auto].
  inversion H as [|? ? W F]; subst.
  destruct (init_well_formed _ W) as (ev & log & ->).
  destruct (IH F) as (evs & logs & ->). cbn [bind]. eauto.
Qed.

Lemma room_events_list (items ra : list (string * value)) (room_id : string)
    (l : list value) :
  lookup ("r" ++ room_id) items = Some (VDict ra) ->
  lookup "e" ra = Some (VList l) ->
  _room_events (VDict items) room_id = events_of l.
Proof.
  intros Hr He. unfold _room_events, get. rewrite Hr. cbn [bind].
  rewrite He. reflexivity.
Qed.

(** C7.  A raw record whose [event_type] is an int outside the codes of
    [Types] builds an event without raising: the event's type is the raw
    int as it came, the record is kept, and the only trace of the anomaly
    is one log line.  In a list of records it stands between the events
    of the records before it and those of the records after it, whose
    classification goes on as it would without it. *)
Theorem unknown_event_type_kept
    (d : list (string * value)) (n : Z) (before rest : list value) :
  well_formed_record (VDict d) = true ->
  lookup "event_type" d = Some (VInt n) ->
  known_code n = false ->
  exists ev,
    Event.__init__ (VDict d) = Ok (ev, [Event.Unrecognized_event_type (VInt n)])
    /\ Event.type ev = Event.Plain (VInt n)
    /\ Event._data ev = VDict d
    /\ events_of (before ++ VDict d :: rest)
       = bind (events_of before) (fun '(evs1, log1) =>
         bind (events_of rest) (fun '(evs2, log2) =>
         Ok (evs1 ++ ev :: evs2,
             log1 ++ Event.Unrecognized_event_type (VInt n) :: log2))).
Proof.
  intros W Ety K.
  destruct (init_unknown d n W Ety K) as (ev & E & Hty & _).
  exists ev. split; [exact E|]. split; [exact Hty|].
  split; [exact (init_data _ _ _ E)|].
  rewrite events_of_app. cbn [events_of].
  rewrite (well_formed_truthy _ W), E. cbn [bind].
  destruct (events_of before) as [[evs1 log1]|]; cbn [bind]; [|reflexivity].
  now destruct (events_of rest) as [[evs2 log2]|].
Qed.

Lemma unknown_event_type_kept_witness :
  well_formed_record (VDict record_9999) = true /\
  lookup "event_type" record_9999 = Some (VInt 9999) /\
  known_code 9999 = false /\
  exists ev,
    Event.__init__ (VDict record_9999)
    = Ok (ev, [Event.Unrecognized_event_type (VInt 9999)])
    /\ Event.type ev = Event.Plain (VInt 9999)
    /\ Event._data ev = VDict record_9999
    /\ events_of ([VDict record_posted] ++ VDict record_9999 :: [VDict record_posted])
       = bind (events_of [VDict record_posted]) (fun '(evs1, log1) =>
         bind (events_of [VDict record_posted]) (fun '(evs2, log2) =>
         Ok (evs1 ++ ev :: evs2,
             log1 ++ Event.Unrecognized_event_type (VInt 9999) :: log2))).
Proof.
  split; [reflexivity|]. split; [reflexivity|]. split; [reflexivity|].
  apply (unknown_event_type_kept record_9999 9999
           [VDict record_posted] [VDict record_posted]); reflexivity.
Defined.

(** C8.  [_room_events] returns no event when the activity has no entry
    for the room, or the entry has no event list or an empty one.  On a
    list of raw records, what it returns is, in the order of the list,
    the events of its truthy records and nothing else: the [i]-th event
    is the one built from the [i]-th truthy record.  It does return when
    every truthy record is well formed. *)
Theorem room_events_in_order (items : list (string * value)) (room_id : string) :
  (lookup ("r" ++ room_id) items = None ->
   _room_events (VDict items) room_id = Ok ([], [])) /\
  (forall ra,
     lookup ("r" ++ room_id) items = Some (VDict ra) ->
     lookup "e" ra = None \/ lookup "e" ra = Some (VList []) ->
     _room_events (VDict items) room_id = Ok ([], [])) /\
  (forall ra l,
     lookup ("r" ++ room_id) items = Some (VDict ra) ->
     lookup "e" ra = Some (VList l) ->
     (forall evs logs,
        _room_events (VDict items) room_id = Ok (evs, logs) ->
        map Event._data evs = filter truthy l
        /\ Forall2
             (fun data ev => exists log, Event.__init__ data = Ok (ev, log))
             (filter truthy l) evs) /\
     (Forall (fun data => well_formed_record data = true) (filter truthy l) ->
      exists evs logs,
        _room_events (VDict items) room_id = Ok (evs, logs)
        /\ map Event._data evs = filter truthy l)).
Proof.
  split; [|split].
  - intros Hr. unfold _room_events, get. now rewrite Hr.
  - intros ra Hr [He|He].
    + unfold _room_events, get. rewrite Hr. cbn [bind]. now rewrite He.
    + now rewrite (room_events_list _ _ _ _ Hr He).
  - intros ra l Hr He. rewrite (room_events_list _ _ _ _ Hr He).
    assert (A : forall evs logs,
               events_of l = Ok (evs, logs) ->
               map Event._data evs = filter truthy l
               /\ Forall2
                    (fun data ev => exists log, Event.__init__ data = Ok (ev, log))
                    (filter truthy l) evs).
    { intros evs logs E. pose proof (events_of_Forall2 _ _ _ E) as F.
      split; [now apply Forall2_init_data|exact F]. }
    split; [exact A|].
    intros W. destruct (events_of_total l W) as (evs & logs & E).
    exists evs, logs. split; [exact E|]. now apply (A evs logs).
Qed.

Lemma room_events_in_order_witness :
  lookup ("r" ++ "101") activity_101
  = Some (VDict [("e", VList [VDict record_posted; VNone; VDict [];
                              VDict record_9999])]) /\
  Forall (fun data => well_formed_record data = true)
    (filter truthy [VDict record_posted; VNone; VDict []; VDict record_9999]) /\
  exists evs logs,
    _room_events (VDict activity_101) "101" = Ok (evs, logs)
    /\ map Event._data evs
       = filter truthy [VDict record_posted; VNone; VDict []; VDict record_9999].
Proof.
  assert (W : Forall (fun data => well_formed_record data = true)
                (filter truthy
                   [VDict record_posted; VNone; VDict []; VDict record_9999]))
    by (repeat constructor).
  split; [reflexivity|]. split; [exact W|].
  destruct (room_events_in_order activity_101 "101") as (_ & _ & H).
  destruct (H _ _ eq_refl eq_refl) as [_ T]. exact (T W).
Defined.

(* ================================================================== *)
(** ** The dispatch queue *)

Lemma posts_app (es1 es2 : list effect) :
  posts (es1 ++ es2) = posts es1 ++ posts es2.
Proof.
  induction es1 as [|[url text response|w] es1 IH]; simpl; [reflexivity| |exact IH].
  now rewrite IH.
Qed.

Lemma variant_guard (previous : option string) (text : string) :
  variant text (duplicate_guard previous text).
Proof.
  unfold duplicate_guard. destruct previous as [p|].
  - destruct (String.eqb text p); exists 0%nat; simpl; rewrite append_nil_r; auto.
  - exists 0%nat. simpl. rewrite append_nil_r. auto.
Qed.

Lemma variant_space (text text' : string) :
  variant text text' -> variant text (text' ++ " ")%string.
Proof.
  intros [k [-> | ->]]; exists (S k); rewrite append_assoc, spaces_snoc; auto.
Qed.

(** The send loop touches [_previous] only. *)
Lemma while_not_sent_final (script : list value) (self : t) (room_id : string) :
  forall text,
    exists p, final (while_not_sent script self room_id text) = set__previous p self.
Proof.
  induction script as [|response script IH]; intros text; simpl.
  - exists (_previous self). now destruct self.
  - destruct (respond text response) as [[w t']|e].
    + destruct (negb (w =? 0)); simpl; [apply IH|eauto].
    + exists (_previous self). now destruct self.
Qed.

Lemma while_not_sent_ended (script : list value) (self : t) (room_id : string) :
  forall text,
    ended (while_not_sent script self room_id text) <> BlockedOnGet
    /\ ended (while_not_sent script self room_id text) <> OutOfFuel.
Proof.
  induction script as [|response script IH]; intros text; simpl.
  - split; discriminate.
  - destruct (respond text response) as [[w t']|e]; [|split; discriminate].
    destruct (negb (w =? 0)); simpl; [apply IH|split; discriminate].
Qed.

Lemma raise_not_accepted (text : string) (response : value) (e : exn) :
  respond text response = Raise e -> accepted response = false.
Proof.
  intros H. pose proof (respond_wait response text EmptyString) as E.
  unfold accepted. rewrite H in E.
  now destruct (respond EmptyString response) as [[w t0]|].
Qed.

(** The posts of one send loop are attempts for its message, none
    accepted but the last, on which it returns. *)
Lemma while_not_sent_serves (c : call) (calls : list call)
    (ps : list (string * string * value)) (rest : list call)
    (script : list value) (self : t) :
  forall text,
    variant (snd c) text ->
    (ended (while_not_sent script self (fst c) text) = Returned ->
     serves calls ps rest) ->
    (ended (while_not_sent script self (fst c) text) <> Returned ->
     ps = [] /\ rest = c :: calls) ->
    serves (c :: calls)
      (posts (effects (while_not_sent script self (fst c) text)) ++ ps) rest.
Proof.
  induction script as [|response script IH]; intros text V; simpl.
  - intros _ H. destruct H as [-> ->]; [discriminate|constructor].
  - destruct (respond text response) as [[w t']|e] eqn:Hr.
    + destruct (Z.eqb_spec w 0) as [->|Hw]; simpl.
      * intros H _. apply serves_next; [split; [reflexivity|exact V]| |auto].
        now apply respond_accepted in Hr.
      * intros H1 H2. apply serves_retry; [split; [reflexivity|exact V]| |].
        -- eapply rejected_respond; eauto.
        -- apply IH; [|assumption|assumption].
           destruct (respond_text _ _ _ _ Hr) as [->| ->];
             [exact V|now apply variant_space].
    + simpl. intros _ H. destruct H as [-> ->]; [discriminate|].
      apply serves_retry; [split; [reflexivity|exact V]| |constructor].
      eapply raise_not_accepted; eauto.
Qed.

(** The worker serves the pending messages of its queue in their order. *)
Lemma worker_loop_serves (fuel : nat) :
  forall script self,
    exists rest,
      serves (pending (message_queue self))
        (posts (effects (worker_loop fuel script self))) rest
      /\ (ended (worker_loop fuel script self) = BlockedOnGet ->
          rest = [] /\ message_queue (final (worker_loop fuel script self)) = []).
Proof.
  induction fuel as [|fuel IH]; intros script self.
  - simpl. eexists. split; [constructor|discriminate].
  - destruct (message_queue self) as [|[room_id text|] queue] eqn:Hq.
    + cbn [worker_loop]. rewrite Hq. simpl.
      exists []. split; [constructor|auto].
    + rewrite (worker_loop_message _ _ _ _ _ _ Hq). cbv zeta.
      set (self1 := set_messages (messages self + 1) (set_message_queue queue self)).
      set (T := duplicate_guard (_previous self) text).
      pose proof (while_not_sent_serves (room_id, text) (pending queue)) as L.
      pose proof (while_not_sent_ended script self1 room_id T) as [N1 N2].
      destruct (while_not_sent_final script self1 room_id T) as [p Hf].
      cbn [pending].
      destruct (ended (while_not_sent script self1 room_id T)) eqn:He;
        try contradiction.
      * destruct (IH (unread (while_not_sent script self1 room_id T))
                    (final (while_not_sent script self1 room_id T)))
          as (rest & S1 & S2).
        rewrite Hf in S1 at 1. cbn [message_queue set__previous self1
          set_messages set_message_queue] in S1.
        exists rest. cbn [after effects ended final]. rewrite posts_app.
        split; [|exact S2].
        apply (L _ rest script self1 T); cbn [fst snd];
          [apply variant_guard|auto|rewrite He; congruence].
      * exists ((room_id, text) :: pending queue). cbv iota.
        split; [|rewrite He; discriminate].
        rewrite <- (app_nil_r (posts _)).
        apply (L [] _ script self1 T); cbn [fst snd];
          [apply variant_guard|rewrite He; discriminate|auto].
      * exists ((room_id, text) :: pending queue). cbv iota.
        split; [|rewrite He; discriminate].
        rewrite <- (app_nil_r (posts _)).
        apply (L [] _ script self1 T); cbn [fst snd];
          [apply variant_guard|rewrite He; discriminate|auto].
    + cbn [worker_loop]. rewrite Hq. simpl.
      exists []. split; [constructor|discriminate].
Qed.

Lemma send_all_queue (calls : list call) :
  forall self,
    message_queue (send_all calls self)
    = message_queue self ++ map item_of calls
    /\ logged_in (send_all calls self) = logged_in self.
Proof.
  unfold send_all.
  induction calls as [|c calls IH]; intros self.
  - simpl. now rewrite app_nil_r.
  - destruct (IH (put (Message (fst c) (snd c)) self)) as [E1 E2].
    split; (etransitivity; [eassumption|]); [|reflexivity].
    simpl. now rewrite <- app_assoc.
Qed.

Lemma pending_items (calls : list call) : pending (map item_of calls) = calls.
Proof.
  induction calls as [|[room_id text] calls IH]; simpl; [reflexivity|].
  now rewrite IH.
Qed.

Lemma pending_app_exit (queue after_exit : list item) :
  pending (queue ++ SystemExit :: after_exit) = pending queue.
Proof.
  induction queue as [|[room_id text|] queue IH]; simpl; [reflexivity| |reflexivity].
  now rewrite IH.
Qed.

(** More fuel than the queue is long is enough. *)
Lemma worker_loop_fuel (fuel : nat) :
  forall script self,
    (List.length (message_queue self) < fuel)%nat ->
    ended (worker_loop fuel script self) <> OutOfFuel.
Proof.
  induction fuel as [|fuel IH]; intros script self Hlen; [lia|].
  destruct (message_queue self) as [|[room_id text|] queue] eqn:Hq.
  - cbn [worker_loop]. rewrite Hq. discriminate.
  - rewrite (worker_loop_message _ _ _ _ _ _ Hq). cbv zeta.
    set (self1 := set_messages (messages self + 1) (set_message_queue queue self)).
    set (T := duplicate_guard (_previous self) text).
    pose proof (while_not_sent_ended script self1 room_id T) as [_ N].
    destruct (while_not_sent_final script self1 room_id T) as [p Hf].
    destruct (ended (while_not_sent script self1 room_id T)) eqn:He;
      cbv iota; try (rewrite He; discriminate).
    + rewrite ended_after. apply IH. rewrite Hf. simpl in *. lia.
    + contradiction.
  - cbn [worker_loop]. rewrite Hq. discriminate.
Qed.

(** When the transport accepts every post, the worker empties a queue of
    messages with one response each. *)
Lemma worker_loop_all_accepted (calls : list call) :
  forall fuel script self,
    message_queue self = map item_of calls ->
    Forall (fun x => accepted x = true) script ->
    (List.length calls <= List.length script)%nat ->
    (List.length calls < fuel)%nat ->
    ended (worker_loop fuel script self) = BlockedOnGet.
Proof.
  induction calls as [|[room_id text] calls IH]; intros fuel script self Hq Ha Hs Hf.
  - destruct fuel; [simpl in Hf; lia|]. cbn [worker_loop]. now rewrite Hq.
  - destruct fuel; [simpl in Hf; lia|].
    destruct script as [|response script]; [simpl in Hs; lia|].
    inversion Ha as [|? ? A Ha']; subst.
    rewrite (worker_loop_message _ _ _ _ _ _ Hq). cbv zeta.
    rewrite (while_not_sent_success _ _ _ _ _ _ (accepted_respond _ _ A)).
    cbn [ended final unread effects]. rewrite ended_after.
    apply IH; [reflexivity|assumption|simpl in Hs; lia|simpl in Hf; lia].
Qed.

(** The send loop reads nothing of the instance: on two instances it
    ends the same way, with the same effects, and sets the same
    [_previous]. *)
Lemma while_not_sent_frame (script : list value) (self self' : t) (room_id : string) :
  forall text,
    ended (while_not_sent script self' room_id text)
    = ended (while_not_sent script self room_id text)
    /\ effects (while_not_sent script self' room_id text)
       = effects (while_not_sent script self room_id text)
    /\ unread (while_not_sent script self' room_id text)
       = unread (while_not_sent script self room_id text)
    /\ exists f,
         final (while_not_sent script self room_id text) = f self
         /\ final (while_not_sent script self' room_id text) = f self'
         /\ (f = (fun s => s) \/ exists p, f = set__previous p).
Proof.
  induction script as [|response script IH]; intros text; simpl.
  - repeat split. exists (fun s => s). auto.
  - destruct (respond text response) as [[w t']|e].
    + destruct (negb (w =? 0)); simpl.
      * destruct (IH t') as (E1 & E2 & E3 & E4). rewrite E1, E2, E3. auto.
      * repeat split. exists (set__previous (Some t')). eauto.
    + repeat split. exists (fun s => s). auto.
Qed.

(** A call to [sendMessage] made while the worker is busy changes
    nothing of what the worker does: unless the worker found the queue
    empty, its run on the queue with one more item at the end is the run
    it had. *)
Lemma worker_loop_put (x : item) (fuel : nat) :
  forall script self,
    ended (worker_loop fuel script self) <> BlockedOnGet ->
    ended (worker_loop fuel script (put x self))
    = ended (worker_loop fuel script self)
    /\ effects (worker_loop fuel script (put x self))
       = effects (worker_loop fuel script self)
    /\ unread (worker_loop fuel script (put x self))
       = unread (worker_loop fuel script self)
    /\ final (worker_loop fuel script (put x self))
       = put x (final (worker_loop fuel script self)).
Proof.
  induction fuel as [|fuel IH]; intros script self Hb; [now simpl|].
  destruct (message_queue self) as [|[room_id text|] queue] eqn:Hq.
  - exfalso. apply Hb. cbn [worker_loop]. now rewrite Hq.
  - assert (Hq' : message_queue (put x self)
                  = Message room_id text :: (queue ++ [x]))
      by (unfold put; simpl; now rewrite Hq).
    rewrite (worker_loop_message _ _ _ _ _ _ Hq) in Hb |- *.
    rewrite (worker_loop_message _ _ _ _ _ _ Hq'). cbv zeta in Hb |- *.
    change (_previous (put x self)) with (_previous self).
    change (messages (put x self)) with (messages self).
    set (T := duplicate_guard (_previous self) text) in *.
    set (self1 := set_messages (messages self + 1) (set_message_queue queue self)) in *.
    assert (E : set_messages (messages self + 1)
                  (set_message_queue (queue ++ [x]) (put x self))
                = put x self1)
      by (unfold put, self1; simpl; reflexivity).
    rewrite E.
    destruct (while_not_sent_frame script self1 (put x self1) room_id T)
      as (E1 & E2 & E3 & f & F1 & F2 & Hf).
    assert (C : f (put x self1) = put x (f self1))
      by (destruct Hf as [->|[p ->]]; reflexivity).
    rewrite E1.
    destruct (ended (while_not_sent script self1 room_id T)) eqn:He;
      cbv iota in Hb |- *;
      try (rewrite E1, He, E2, E3, F2, F1, C; auto).
    rewrite E2, E3, F2, C. rewrite F1 in Hb |- *. rewrite ended_after in Hb.
    destruct (IH _ _ Hb) as (I1 & I2 & I3 & I4).
    cbn [after ended effects unread final]. rewrite I1, I2, I3, I4. auto.
  - assert (Hq' : message_queue (put x self) = SystemExit :: (queue ++ [x]))
      by (unfold put; simpl; now rewrite Hq).
    cbn [worker_loop]. rewrite Hq, Hq'. cbn [ended effects unread final].
    repeat split.
Qed.

(** C1.  Whatever the calls to [sendMessage] and whatever the transport
    answers, the worker posts in the order of the calls: the queue holds
    the calls in their order, and the posts are attempts for the first
    call until one is accepted, then attempts for the second, and so on,
    with no post for a later call before an earlier one is accepted.
    When the worker has emptied the queue every call has its accepted
    post; more fuel than there are calls is enough for the run, and a
    transport that accepts every post lets the worker empty the queue.
    A further call made while the worker is busy changes nothing of what
    the worker does. *)
Theorem fifo_delivery
    (calls : list call) (self : t) (fuel : nat) (script : list value) :
  logged_in self = true -> message_queue self = [] ->
  message_queue (send_all calls self) = map item_of calls /\
  (exists rest,
     serves calls (posts (effects (_worker fuel script (send_all calls self)))) rest
     /\ (ended (_worker fuel script (send_all calls self)) = BlockedOnGet ->
         rest = [])) /\
  ((List.length calls < fuel)%nat ->
   ended (_worker fuel script (send_all calls self)) <> OutOfFuel) /\
  (Forall (fun x => accepted x = true) script ->
   (List.length calls <= List.length script)%nat -> (List.length calls < fuel)%nat ->
   ended (_worker fuel script (send_all calls self)) = BlockedOnGet) /\
  (forall room_id text,
     ended (_worker fuel script (send_all calls self)) <> BlockedOnGet ->
     ended (_worker fuel script
              (snd (sendMessage room_id text (send_all calls self))))
     = ended (_worker fuel script (send_all calls self))
     /\ effects (_worker fuel script
                   (snd (sendMessage room_id text (send_all calls self))))
        = effects (_worker fuel script (send_all calls self))).
Proof.
  intros Hl Hq. destruct (send_all_queue calls self) as [Q L].
  rewrite Hq in Q. simpl in Q. rewrite Hl in L.
  unfold _worker. rewrite L. cbn [negb].
  split; [exact Q|]. split; [|split; [|split]].
  - destruct (worker_loop_serves fuel script (send_all calls self))
      as (rest & S1 & S2).
    rewrite Q, pending_items in S1. exists rest. split; [exact S1|].
    intros H. now apply S2.
  - intros Hf. apply worker_loop_fuel. now rewrite Q, length_map.
  - intros Ha Hs Hf. now apply (worker_loop_all_accepted calls).
  - intros room_id text Hb. cbn [sendMessage snd].
    change (logged_in (put (Message room_id text) (send_all calls self)))
      with (logged_in (send_all calls self)).
    rewrite L. cbn [negb].
    destruct (worker_loop_put (Message room_id text) fuel script
                (send_all calls self) Hb) as (E1 & E2 & _).
    now split.
Qed.

Lemma fifo_delivery_witness :
  logged_in (set_logged_in true (__init__ "SE")) = true /\
  message_queue (set_logged_in true (__init__ "SE")) = [] /\
  posts (effects (_worker 3
    [VStr "busy"; VDict [("id", VInt 1)]; VDict [("id", VInt 2)]]
    (send_all [("17", "a"); ("18", "b")] (set_logged_in true (__init__ "SE")))))
  = [ (url_of "17", "a", VStr "busy");
      (url_of "17", "a", VDict [("id", VInt 1)]);
      (url_of "18", "b", VDict [("id", VInt 2)]) ] /\
  exists rest,
    serves [("17", "a"); ("18", "b")]
      (posts (effects (_worker 3
         [VStr "busy"; VDict [("id", VInt 1)]; VDict [("id", VInt 2)]]
         (send_all [("17", "a"); ("18", "b")]
            (set_logged_in true (__init__ "SE")))))) rest
    /\ (ended (_worker 3
          [VStr "busy"; VDict [("id", VInt 1)]; VDict [("id", VInt 2)]]
          (send_all [("17", "a"); ("18", "b")]
             (set_logged_in true (__init__ "SE")))) = BlockedOnGet ->
        rest = []).
Proof.
  split; [reflexivity|]. split; [reflexivity|]. split; [reflexivity|].
  apply (fifo_delivery [("17", "a"); ("18", "b")]
           (set_logged_in true (__init__ "SE")) 3
           [VStr "busy"; VDict [("id", VInt 1)]; VDict [("id", VInt 2)]]);
    reflexivity.
Defined.

(* ================================================================== *)
(** ** The session: login, logout and sending outside a login *)

(** A login that returns has marked the instance logged in and started
    the thread, and has changed nothing else. *)
Lemma login_Ok (br : SEChatBrowser) (username password : string) (self self' : t)
    (u : unit) :
  login br username password self = (Ok u, self') ->
  logged_in self = false
  /\ self' = set_thread_started true (set_logged_in true self).
Proof.
  unfold login, thread_start.
  destruct (logged_in self); [discriminate|].
  destruct (loginSEOpenID br username password); [|discriminate].
  destruct (login_site br (site self)); [|discriminate].
  cbn [thread_started set_logged_in].
  destruct (thread_started self); [discriminate|].
  intros [= _ <-]. auto.
Qed.

Lemma login_site_unknown (br : SEChatBrowser) (site0 : string) :
  site0 <> "SE" -> site0 <> "SO" -> site0 <> "MSE" ->
  login_site br site0 = Raise (ValueError "Unable to login to site: %r" site0).
Proof.
  intros H1 H2 H3. unfold login_site.
  destruct (String.eqb_spec site0 "SE"); [contradiction|].
  destruct (String.eqb_spec site0 "SO"); [contradiction|].
  destruct (String.eqb_spec site0 "MSE"); [contradiction|].
  reflexivity.
Qed.

(** On an instance whose site is none of the three the login knows,
    [login] raises and leaves the instance as it was. *)
Lemma login_unknown_site (br : SEChatBrowser) (username password : string)
    (self : t) :
  site self <> "SE" -> site self <> "SO" -> site self <> "MSE" ->
  exists e, login br username password self = (Raise e, self).
Proof.
  intros H1 H2 H3. unfold login.
  destruct (logged_in self); [eauto|].
  destruct (loginSEOpenID br username password); [|eauto].
  rewrite (login_site_unknown br _ H1 H2 H3). eauto.
Qed.

(** C9.  On an instance built for a site outside the closed set the
    wrapper knows ("SE", "SO", "MSE", and "MSO" which the constructor
    turns into "MSE"), [login] raises; the instance is left as it was,
    not logged in and its thread not started.  When the OpenID step of
    the transport returns, the error is the [ValueError] that names the
    site. *)
Theorem login_unknown_site_fails
    (br : SEChatBrowser) (username password site0 : string) :
  site0 <> "SE" -> site0 <> "SO" -> site0 <> "MSE" -> site0 <> "MSO" ->
  exists e,
    login br username password (__init__ site0) = (Raise e, __init__ site0)
    /\ logged_in (__init__ site0) = false
    /\ thread_started (__init__ site0) = false
    /\ (forall u, loginSEOpenID br username password = Ok u ->
        e = ValueError "Unable to login to site: %r" site0).
Proof.
  intros H1 H2 H3 H4.
  assert (S0 : site (__init__ site0) = site0).
  { unfold __init__. destruct (String.eqb_spec site0 "MSO"); [contradiction|].
    reflexivity. }
  destruct (login_unknown_site br username password (__init__ site0))
    as [e E]; try (rewrite S0; assumption).
  exists e. split; [exact E|]. split; [reflexivity|]. split; [reflexivity|].
  intros u Hu. revert E. unfold login. cbn [logged_in __init__].
  rewrite Hu. fold (__init__ site0). rewrite S0.
  rewrite (login_site_unknown br _ H1 H2 H3). now intros [= <-].
Qed.

Lemma login_unknown_site_fails_witness :
  "SF" <> "SE" /\ "SF" <> "SO" /\ "SF" <> "MSE" /\ "SF" <> "MSO" /\
  exists e,
    login browser_ok "user" "secret" (__init__ "SF") = (Raise e, __init__ "SF")
    /\ logged_in (__init__ "SF") = false
    /\ thread_started (__init__ "SF") = false
    /\ (forall u, loginSEOpenID browser_ok "user" "secret" = Ok u ->
        e = ValueError "Unable to login to site: %r" "SF").
Proof.
  repeat (split; [discriminate|]).
  apply (login_unknown_site_fails browser_ok "user" "secret" "SF");
    discriminate.
Defined.

(** C2 as stated fails: on a fresh instance, not logged in,
    [sendMessage] returns normally and the message is in the queue; the
    login that follows starts the worker, which posts it. *)
Lemma send_before_login_is_sent :
  logged_in (__init__ "SE") = false /\
  sendMessage "17" "hello" (__init__ "SE")
  = (Ok tt, put (Message "17" "hello") (__init__ "SE")) /\
  message_queue (snd (sendMessage "17" "hello" (__init__ "SE")))
  = [Message "17" "hello"] /\
  fst (login browser_ok "user" "secret"
         (snd (sendMessage "17" "hello" (__init__ "SE")))) = Ok tt /\
  posts (effects (_worker 2 [VDict [("id", VInt 1)]]
    (snd (login browser_ok "user" "secret"
            (snd (sendMessage "17" "hello" (__init__ "SE")))))))
  = [(url_of "17", "hello", VDict [("id", VInt 1)])].
Proof. repeat split. Qed.

(** C2, amended.  [sendMessage] has no check of [logged_in]: in every
    state it returns normally and the message is the last item of the
    queue.  A message queued on an idle instance before the login is
    posted by the worker the login starts.  A message queued after a
    logout lies behind the stop marker: the posts of the running worker
    serve the messages that were pending before the logout, and no
    other. *)
Theorem send_is_not_guarded (room_id text : string) (self : t) :
  sendMessage room_id text self = (Ok tt, put (Message room_id text) self) /\
  (forall br username password self' fuel response script,
     logged_in self = false -> message_queue self = [] ->
     login br username password (snd (sendMessage room_id text self))
     = (Ok tt, self') ->
     exists es,
       effects (_worker (S fuel) (response :: script) self')
       = Post (url_of room_id) (duplicate_guard (_previous self) text) response
         :: es) /\
  (forall fuel script,
     logged_in self = true ->
     logged_in (snd (logout self)) = false /\
     message_queue (snd (sendMessage room_id text (snd (logout self))))
     = message_queue self ++ [SystemExit; Message room_id text] /\
     exists rest,
       serves (pending (message_queue self))
         (posts (effects (worker_loop fuel script
            (snd (sendMessage room_id text (snd (logout self))))))) rest).
Proof.
  split; [reflexivity|]. split.
  - intros br username password self' fuel response script Hl Hq E.
    apply login_Ok in E as [_ ->]. unfold _worker. cbn [logged_in
      set_thread_started set_logged_in sendMessage snd negb].
    erewrite worker_loop_message
      by (cbn [message_queue set_thread_started set_logged_in put
               set_message_queue]; rewrite Hq; reflexivity).
    cbv zeta.
    change (_previous _) with (_previous self).
    cbn [while_not_sent].
    destruct (respond (duplicate_guard (_previous self) text) response)
      as [[w t']|e]; [|cbn; eauto].
    destruct (negb (w =? 0)).
    + match goal with
      | |- context [match ended ?r with _ => _ end] => destruct (ended r)
      end; cbn; eauto.
    + cbn. eauto.
  - intros fuel script Hl. unfold logout. rewrite Hl.
    cbn [negb snd sendMessage logged_in set_logged_in].
    split; [reflexivity|].
    assert (Q : message_queue
                  (put (Message room_id text)
                     (set_logged_in false (put SystemExit self)))
                = message_queue self ++ [SystemExit; Message room_id text]).
    { cbn. now rewrite <- app_assoc. }
    split; [exact Q|].
    destruct (worker_loop_serves fuel script
                (put (Message room_id text)
                   (set_logged_in false (put SystemExit self))))
      as (rest & S1 & _).
    rewrite Q, pending_app_exit in S1. eauto.
Qed.

Lemma send_is_not_guarded_witness :
  logged_in (set_logged_in true (__init__ "SE")) = true /\
  logged_in (snd (logout (set_logged_in true (__init__ "SE")))) = false /\
  message_queue
    (snd (sendMessage "17" "hello"
            (snd (logout (set_logged_in true (__init__ "SE"))))))
  = message_queue (set_logged_in true (__init__ "SE"))
    ++ [SystemExit; Message "17" "hello"] /\
  exists rest,
    serves (pending (message_queue (set_logged_in true (__init__ "SE"))))
      (posts (effects (worker_loop 3 [VInt 1]
         (snd (sendMessage "17" "hello"
                 (snd (logout (set_logged_in true (__init__ "SE"))))))))) rest.
Proof.
  split; [reflexivity|].
  destruct (send_is_not_guarded "17" "hello" (set_logged_in true (__init__ "SE")))
    as (_ & _ & H).
  exact (H 3%nat [VInt 1] eq_refl).
Defined.

(* ================================================================== *)
(** ** More on the events *)

(** X1.  [Types.by_value()] is a faithful table: looking up the value of
    a member gives that member back, a value found in it is the value of
    the member found, and no two members share a value. *)
Theorem by_value_round_trip :
  (forall m, Event.find_value (Event.value_of m) Event.by_value = Some m) /\
  (forall n m, Event.find_value n Event.by_value = Some m -> Event.value_of m = n) /\
  (forall m1 m2, Event.value_of m1 = Event.value_of m2 -> m1 = m2).
Proof.
  split; [|split].
  - intros m. now destruct m.
  - intros n m H. pose proof (find_value_by_value n Event.members) as F.
    fold Event.by_value in F. now rewrite H in F.
  - intros m1 m2. destruct m1, m2; simpl; intros E; try reflexivity; discriminate E.
Qed.

Lemma getitem_lookup (d : list (string * value)) (key : string) (v : value) :
  lookup key d = Some v -> getitem (VDict d) key = Ok v.
Proof. intros H. unfold getitem. now rewrite H. Qed.

Lemma lookup_truthy (d : list (string * value)) (key : string) (v : value) :
  lookup key d = Some v -> truthy (VDict d) = true.
Proof. destruct d; [discriminate|reflexivity]. Qed.

(** X2.  A record whose [event_type] is the value of a member of [Types]
    builds an event of that member, with the four common fields copied
    as they are and nothing logged; the event has the four fields of a
    posted message, copied as they are, exactly when the member is
    [message_posted]. *)
Theorem init_known_type
    (d : list (string * value)) (m : Event.Types) (id rid rname ts : value) :
  lookup "event_type" d = Some (VInt (Event.value_of m)) ->
  lookup "id" d = Some id -> lookup "room_id" d = Some rid ->
  lookup "room_name" d = Some rname -> lookup "time_stamp" d = Some ts ->
  (m <> Event.message_posted ->
   Event.__init__ (VDict d)
   = Ok ({| Event._data := VDict d; Event.type := Event.Member m;
            Event.event_id := id; Event.room_id := rid;
            Event.room_name := rname; Event.time_stamp := ts;
            Event.posted := None |}, [])) /\
  (m = Event.message_posted ->
   forall c un uid mid,
     lookup "content" d = Some c -> lookup "user_name" d = Some un ->
     lookup "user_id" d = Some uid -> lookup "message_id" d = Some mid ->
     Event.__init__ (VDict d)
     = Ok ({| Event._data := VDict d; Event.type := Event.Member m;
              Event.event_id := id; Event.room_id := rid;
              Event.room_name := rname; Event.time_stamp := ts;
              Event.posted :=
                Some {| Event.content := c; Event.user_name := un;
                        Event.user_id := uid; Event.message_id := mid |} |},
           [])).
Proof.
  intros Ety Hid Hrid Hrn Hts.
  assert (P : Event.__init__ (VDict d)
              = bind (Ok (Event.Member m, false)) (fun '(ty, unknown) =>
                let log := if unknown then [Event.Unrecognized_event_type
                                              (VInt (Event.value_of m))]
                           else [] in
                if Event.is_message_posted ty then
                  bind (getitem (VDict d) "content") (fun c =>
                  bind (getitem (VDict d) "user_name") (fun un =>
                  bind (getitem (VDict d) "user_id") (fun uid =>
                  bind (getitem (VDict d) "message_id") (fun mid =>
                  Ok ({| Event._data := VDict d; Event.type := ty;
                         Event.event_id := id; Event.room_id := rid;
                         Event.room_name := rname; Event.time_stamp := ts;
                         Event.posted :=
                           Some {| Event.content := c; Event.user_name := un;
                                   Event.user_id := uid;
                                   Event.message_id := mid |} |}, log)))))
                else
                  Ok ({| Event._data := VDict d; Event.type := ty;
                         Event.event_id := id; Event.room_id := rid;
                         Event.room_name := rname; Event.time_stamp := ts;
                         Event.posted := None |}, log))).
  { unfold Event.__init__. rewrite (lookup_truthy _ _ _ Ety). cbn [negb].
    rewrite (getitem_lookup _ _ _ Ety), (getitem_lookup _ _ _ Hid),
      (getitem_lookup _ _ _ Hrid), (getitem_lookup _ _ _ Hrn),
      (getitem_lookup _ _ _ Hts).
    cbn [bind Event.resolve].
    assert (F : Event.find_value (Event.value_of m) Event.by_value = Some m)
      by now destruct m.
    rewrite F. reflexivity. }
  rewrite P. cbn [bind Event.is_message_posted]. split.
  - intros Hm. destruct (Z.eqb_spec (Event.value_of m)
                           (Event.value_of Event.message_posted)) as [E|E];
      [|reflexivity].
    exfalso. apply Hm. destruct m; try reflexivity; discriminate E.
  - intros -> c un uid mid Hc Hun Huid Hmid.
    rewrite Z.eqb_refl, (getitem_lookup _ _ _ Hc), (getitem_lookup _ _ _ Hun),
      (getitem_lookup _ _ _ Huid), (getitem_lookup _ _ _ Hmid).
    reflexivity.
Qed.

Lemma init_known_type_witness :
  lookup "event_type" record_posted = Some (VInt (Event.value_of Event.message_posted)) /\
  Event.__init__ (VDict record_posted)
  = Ok ({| Event._data := VDict record_posted;
           Event.type := Event.Member Event.message_posted;
           Event.event_id := VInt 9; Event.room_id := VInt 101;
           Event.room_name := VUnicode "X"; Event.time_stamp := VInt 123;
           Event.posted :=
             Some {| Event.content := VUnicode "hi";
                     Event.user_name := VUnicode "Bob";
                     Event.user_id := VInt 5;
                     Event.message_id := VInt 77 |} |}, []).
Proof.
  split; [reflexivity|].
  apply (init_known_type record_posted Event.message_posted
           (VInt 9) (VInt 101) (VUnicode "X") (VInt 123));
    reflexivity.
Defined.

(** X3.  On a non-empty record that lacks one of the fields the
    constructor reads, the construction raises [KeyError] for the first
    field it misses: one of the five common fields, read in the order
    event_type, id, room_id, room_name, time_stamp, or, when these are
    there and the type is [message_posted] (1), one of content,
    user_name, user_id, message_id. *)
Theorem init_missing_field (d : list (string * value)) (key : string) :
  d <> [] ->
  (first_missing base_keys d = Some key ->
   Event.__init__ (VDict d) = Raise (KeyError key)) /\
  (first_missing base_keys d = None ->
   lookup "event_type" d = Some (VInt 1) ->
   first_missing message_keys d = Some key ->
   Event.__init__ (VDict d) = Raise (KeyError key)).
Proof.
  intros Hd.
  assert (T : truthy (VDict d) = true) by (destruct d; [contradiction|reflexivity]).
  unfold Event.__init__, base_keys, message_keys. rewrite T. cbn [negb first_missing].
  unfold getitem. split.
  - destruct (lookup "event_type" d); cbn [bind]; [|now intros [= <-]].
    destruct (lookup "id" d); cbn [bind]; [|now intros [= <-]].
    destruct (lookup "room_id" d); cbn [bind]; [|now intros [= <-]].
    destruct (lookup "room_name" d); cbn [bind]; [|now intros [= <-]].
    destruct (lookup "time_stamp" d); cbn [bind]; [|now intros [= <-]].
    discriminate.
  - intros B Ety. rewrite Ety in B |- *. cbn [bind].
    destruct (lookup "id" d); cbn [bind]; [|discriminate].
    destruct (lookup "room_id" d); cbn [bind]; [|discriminate].
    destruct (lookup "room_name" d); cbn [bind]; [|discriminate].
    destruct (lookup "time_stamp" d); cbn [bind]; [|discriminate].
    change (Event.resolve (VInt 1)) with (Ok (Event.Member Event.message_posted, false)).
    cbn [bind Event.is_message_posted]. change (_ =? _) with true. cbv iota.
    destruct (lookup "content" d); cbn [bind]; [|now intros [= <-]].
    destruct (lookup "user_name" d); cbn [bind]; [|now intros [= <-]].
    destruct (lookup "user_id" d); cbn [bind]; [|now intros [= <-]].
    destruct (lookup "message_id" d); cbn [bind]; [|now intros [= <-]].
    discriminate.
Qed.

Lemma init_missing_field_witness :
  [("event_type", VInt 1); ("id", VInt 9); ("room_id", VInt 101);
   ("room_name", VUnicode "X"); ("time_stamp", VInt 123);
   ("content", VUnicode "hi")] <> [] /\
  Event.__init__
    (VDict [("event_type", VInt 1); ("id", VInt 9); ("room_id", VInt 101);
            ("room_name", VUnicode "X"); ("time_stamp", VInt 123);
            ("content", VUnicode "hi")])
  = Raise (KeyError "user_name").
Proof.
  split; [discriminate|].
  apply (init_missing_field
           [("event_type", VInt 1); ("id", VInt 9); ("room_id", VInt 101);
            ("room_name", VUnicode "X"); ("time_stamp", VInt 123);
            ("content", VUnicode "hi")] "user_name");
    [discriminate|reflexivity..].
Defined.

(** X4.  What is no record: the constructor raises [AssertionError] on
    a falsy value ([None], 0, an empty string, list or dict), and
    [TypeError] on a truthy value that is no dict. *)
Theorem init_rejects (data : value) :
  (truthy data = false -> Event.__init__ data = Raise AssertionError) /\
  (truthy data = true -> (forall d, data <> VDict d) ->
   Event.__init__ data = Raise TypeError).
Proof.
  unfold Event.__init__. split.
  - now intros ->.
  - intros -> Hd. cbn [negb].
    destruct data as [| | | | | |d]; try reflexivity. now destruct (Hd d).
Qed.

Lemma init_rejects_witness :
  truthy (VDict []) = false /\ Event.__init__ (VDict []) = Raise AssertionError /\
  truthy (VUnicode "x") = true /\ (forall d, VUnicode "x" <> VDict d) /\
  Event.__init__ (VUnicode "x") = Raise TypeError.
Proof.
  split; [reflexivity|]. split; [now apply (init_rejects (VDict []))|].
  split; [reflexivity|]. split; [discriminate|].
  apply (init_rejects (VUnicode "x")); [reflexivity|discriminate].
Defined.



(* ================================================================== *)
(** ** More on the classification and the delivery of events *)

(** X6.  Activity of the wrong shape: [_room_events] raises
    [AttributeError] when the activity is no dict or the entry of the
    room is no dict, and [TypeError] when the event list of the room is
    [None], a bool or an int, which cannot be iterated. *)
Theorem room_events_wrong_shape (room_id : string) :
  (forall activity,
     (forall d, activity <> VDict d) ->
     _room_events activity room_id = Raise AttributeError) /\
  (forall items v,
     lookup ("r" ++ room_id) items = Some v -> (forall d, v <> VDict d) ->
     _room_events (VDict items) room_id = Raise AttributeError) /\
  (forall items ra v,
     lookup ("r" ++ room_id) items = Some (VDict ra) ->
     lookup "e" ra = Some v ->
     v = VNone \/ (exists b, v = VBool b) \/ (exists n, v = VInt n) ->
     _room_events (VDict items) room_id = Raise TypeError).
Proof.
  unfold _room_events. split; [|split].
  - intros activity Hd. destruct activity as [| | | | | |d]; try reflexivity.
    now destruct (Hd d).
  - intros items v Hr Hd. cbn [get]. rewrite Hr. cbn [bind].
    destruct v as [| | | | | |d]; try reflexivity. now destruct (Hd d).
  - intros items ra v Hr He Hv. cbn [get]. rewrite Hr. cbn [bind get].
    rewrite He. cbn [bind].
    destruct Hv as [->|[[b ->]|[n ->]]]; reflexivity.
Qed.

Lemma room_events_wrong_shape_witness :
  (forall d, VList [] <> VDict d) /\
  _room_events (VList []) "101" = Raise AttributeError /\
  _room_events (VDict [("r101", VDict [("e", VNone)])]) "101" = Raise TypeError.
Proof.
  split; [discriminate|].
  destruct (room_events_wrong_shape "101") as (A & _ & C).
  split; [apply A; discriminate|].
  apply (C _ [("e", VNone)] VNone); auto.
Defined.

(** The first truthy item that does not build an event ends the list
    comprehension with what its construction raised. *)
Lemma events_of_raise (good : list value) (bad : value) (rest : list value)
    (e : exn) :
  Forall (fun data => well_formed_record data = true) (filter truthy good) ->
  truthy bad = true -> Event.__init__ bad = Raise e ->
  events_of (good ++ bad :: rest) = Raise e.
Proof.
  intros G T B. rewrite events_of_app.
  destruct (events_of_total good G) as (evs & logs & ->). cbn [bind events_of].
  rewrite T, B. reflexivity.
Qed.

Lemma deliver_recorder (self : t) (events : list Event.t) :
  forall seen,
    deliver recorder self events seen = (Ok tt, rev events ++ seen).
Proof.
  induction events as [|ev events IH]; intros seen; cbn [deliver recorder rev];
    [reflexivity|].
  rewrite IH, <- app_assoc. reflexivity.
Qed.

Lemma deliver_app {H : Type} (on_event : Event.t -> t -> H -> result unit * H)
    (self : t) (before rest : list Event.t) :
  forall h,
    deliver on_event self (before ++ rest) h
    = match deliver on_event self before h with
      | (Ok _, h') => deliver on_event self rest h'
      | (Raise e, h') => (Raise e, h')
      end.
Proof.
  induction before as [|ev before IH]; intros h; cbn [app deliver]; [reflexivity|].
  destruct (on_event ev self h) as [[u|e] h']; [apply IH|reflexivity].
Qed.

(** X7.  The activity of a room is delivered whole or not at all: when
    one truthy record of the room's list does not build an event, the
    closure raises what the construction raised and the handler is not
    called, not even on the events of the well-formed records that come
    before it. *)
Theorem on_activity_all_or_nothing {H : Type}
    (on_event : Event.t -> t -> H -> result unit * H) (self : t)
    (room_id : string) (items ra : list (string * value))
    (good : list value) (bad : value) (rest : list value) (e : exn) (h : H) :
  lookup ("r" ++ room_id) items = Some (VDict ra) ->
  lookup "e" ra = Some (VList (good ++ bad :: rest)) ->
  Forall (fun data => well_formed_record data = true) (filter truthy good) ->
  truthy bad = true -> Event.__init__ bad = Raise e ->
  on_activity self room_id on_event (VDict items) h = (Raise e, h) /\
  on_activity self room_id recorder (VDict items) [] = (Raise e, []).
Proof.
  intros Hr He G T B. unfold on_activity.
  rewrite (room_events_list _ _ _ _ Hr He), (events_of_raise _ _ _ _ G T B).
  split; reflexivity.
Qed.

Lemma on_activity_all_or_nothing_witness :
  on_activity (__init__ "SE") "101" recorder
    (VDict [("r101",
             VDict [("e", VList ([VDict record_posted]
                                   ++ VDict [("event_type", VInt 1)]
                                   :: [VDict record_9999]))])]) []
  = (Raise (KeyError "id"), []).
Proof.
  apply (on_activity_all_or_nothing recorder (__init__ "SE") "101"
           [("r101",
             VDict [("e", VList ([VDict record_posted]
                                   ++ VDict [("event_type", VInt 1)]
                                   :: [VDict record_9999]))])]
           [("e", VList ([VDict record_posted]
                           ++ VDict [("event_type", VInt 1)]
                           :: [VDict record_9999]))]
           [VDict record_posted] (VDict [("event_type", VInt 1)])
           [VDict record_9999] (KeyError "id") []);
    try reflexivity.
  repeat constructor.
Defined.

(** X8.  When every truthy record of the room's list is well formed,
    the closure calls the handler once on each event, in the order of
    the records: a handler that keeps what it is called on ends with the
    events of [_room_events], one for each truthy record.  A handler that
    raises on an event is not called on the events after it. *)
Theorem on_activity_delivers_in_order
    (self : t) (room_id : string) (items ra : list (string * value))
    (l : list value) :
  lookup ("r" ++ room_id) items = Some (VDict ra) ->
  lookup "e" ra = Some (VList l) ->
  Forall (fun data => well_formed_record data = true) (filter truthy l) ->
  exists events logs,
    _room_events (VDict items) room_id = Ok (events, logs)
    /\ map Event._data events = filter truthy l
    /\ on_activity self room_id recorder (VDict items) [] = (Ok tt, rev events)
    /\ forall (H : Type) (on_event : Event.t -> t -> H -> result unit * H)
         before ev rest h h1 h2 e,
         events = before ++ ev :: rest ->
         deliver on_event self before h = (Ok tt, h1) ->
         on_event ev self h1 = (Raise e, h2) ->
         on_activity self room_id on_event (VDict items) h = (Raise e, h2).
Proof.
  intros Hr He W. unfold on_activity.
  rewrite (room_events_list _ _ _ _ Hr He).
  destruct (events_of_total l W) as (events & logs & E).
  exists events, logs. rewrite E. split; [reflexivity|].
  split; [apply Forall2_init_data; eapply events_of_Forall2; eauto|].
  split; [now rewrite deliver_recorder, app_nil_r|].
  intros H on_event before ev rest h h1 h2 e -> D R.
  rewrite deliver_app, D. cbn [deliver]. now rewrite R.
Qed.

Lemma on_activity_delivers_in_order_witness :
  lookup ("r" ++ "101") activity_101
  = Some (VDict [("e", VList [VDict record_posted; VNone; VDict [];
                              VDict record_9999])]) /\
  exists events logs,
    _room_events (VDict activity_101) "101" = Ok (events, logs)
    /\ map Event._data events
       = filter truthy [VDict record_posted; VNone; VDict []; VDict record_9999]
    /\ on_activity (__init__ "SE") "101" recorder (VDict activity_101) []
       = (Ok tt, rev events).
Proof.
  split; [reflexivity|].
  destruct (on_activity_delivers_in_order (__init__ "SE") "101" activity_101
              [("e", VList [VDict record_posted; VNone; VDict [];
                            VDict record_9999])]
              [VDict record_posted; VNone; VDict []; VDict record_9999]
              eq_refl eq_refl)
    as (events & logs & A & B & C & _); [repeat constructor|].
  exists events, logs. auto.
Defined.

(* ================================================================== *)
(** ** More on the send loop *)

(** X9.  [re.match(TOO_FAST_RE, s)] succeeds exactly on the strings that
    start with the sentence, a non-empty run of digits in the place of
    the number: group 1 is that whole run, and a string with anything
    before the sentence does not match. *)
Theorem too_fast_match_iff (s ds : string) :
  match_TOO_FAST_RE s = Some ds <->
  all_digits ds = true /\ ds <> EmptyString
  /\ exists tail, s = rate_limit_text ds tail.
Proof.
  split; [apply match_TOO_FAST_RE_Some|].
  intros (D & N & tail & ->). now apply match_rate_limit_text.
Qed.

Lemma retried_respond (text : string) (response : value) :
  retried response = true ->
  exists wait text', respond text response = Ok (wait, text') /\ wait <> 0.
Proof.
  unfold retried. intros R.
  pose proof (respond_wait response text EmptyString) as W.
  destruct (respond EmptyString response) as [[w0 t0]|]; [|discriminate].
  destruct (respond text response) as [[w t']|]; [|contradiction].
  subst w0. exists w, t'. split; [reflexivity|].
  apply negb_true_iff in R. now apply Z.eqb_neq.
Qed.

(** The text a branch of the loop leaves: with one more space when the
    response marks a duplicate, as it was otherwise. *)
Lemma respond_marks (text : string) (response : value) (wait : Z) (text' : string) :
  respond text response = Ok (wait, text') ->
  text' = if marks_duplicate response then (text ++ " ")%string else text.
Proof.
  unfold marks_duplicate, respond.
  destruct response as [| | |s| |l|d]; try (now intros [= _ <-]).
  - destruct (match_TOO_FAST_RE s); now intros [= _ <-].
  - destruct (lookup "id" d) as [[]|]; now intros [= _ <-].
Qed.

Lemma length_posts_after (es : list effect) (r : run) :
  List.length (posts (effects (after es r)))
  = (List.length (posts es) + List.length (posts (effects r)))%nat.
Proof. cbn [after effects]. now rewrite posts_app, length_app. Qed.

(** X10.  The send loop returns at the first accepted response: after
    responses that all ask for a retry and then an accepted one, it has
    returned, with one post for each of these responses and the rest of
    the script unread; nothing of the instance has changed but
    [_previous], which is the text it started with followed by one space
    for each response that marked a duplicate. *)
Theorem send_loop_returns_at_first_accepted
    (before : list value) (acc : value) (rest : list value) (self : t)
    (room_id text : string) :
  Forall (fun x => retried x = true) before -> accepted acc = true ->
  ended (while_not_sent (before ++ acc :: rest) self room_id text) = Returned
  /\ unread (while_not_sent (before ++ acc :: rest) self room_id text) = rest
  /\ List.length
       (posts (effects (while_not_sent (before ++ acc :: rest) self room_id text)))
     = S (List.length before)
  /\ final (while_not_sent (before ++ acc :: rest) self room_id text)
     = set__previous (Some (text ++ spaces (duplicates before))%string) self.
Proof.
  intros B A. revert text. induction B as [|x before Hx _ IH]; intros text.
  - cbn [app]. rewrite (while_not_sent_success _ _ _ _ _ _ (accepted_respond text _ A)).
    cbn [ended unread effects final posts List.length duplicates filter spaces].
    now rewrite append_nil_r.
  - cbn [app]. destruct (retried_respond text x Hx) as (w & t' & R & Hw).
    rewrite (while_not_sent_retry _ _ _ _ _ _ _ R Hw).
    destruct (IH t') as (I1 & I2 & I3 & I4).
    split; [now rewrite ended_after|].
    split; [exact I2|].
    split; [now rewrite length_posts_after, I3|].
    cbn [after final]. rewrite I4.
    rewrite (respond_marks _ _ _ _ R). unfold duplicates. cbn [filter].
    destruct (marks_duplicate x); [|reflexivity].
    cbn [List.length]. now rewrite append_assoc.
Qed.

Lemma send_loop_returns_at_first_accepted_witness :
  Forall (fun x => retried x = true)
    [VDict [("id", VNone)]; VStr "?"; VDict [("id", VNone)]] /\
  accepted (VDict [("id", VInt 3)]) = true /\
  final (while_not_sent
           ([VDict [("id", VNone)]; VStr "?"; VDict [("id", VNone)]]
              ++ VDict [("id", VInt 3)] :: [VNone])
           (__init__ "SE") "17" "hello")
  = set__previous (Some "hello  ") (__init__ "SE").
Proof.
  assert (B : Forall (fun x => retried x = true)
                [VDict [("id", VNone)]; VStr "?"; VDict [("id", VNone)]])
    by (repeat constructor).
  split; [exact B|]. split; [reflexivity|].
  destruct (send_loop_returns_at_first_accepted
              [VDict [("id", VNone)]; VStr "?"; VDict [("id", VNone)]]
              (VDict [("id", VInt 3)]) [VNone] (__init__ "SE") "17" "hello"
              B eq_refl) as (_ & _ & _ & F).
  exact F.
Defined.

Lemma while_not_sent_missing_id (before : list value) (d : list (string * value))
    (rest : list value) (self : t) (room_id : string) :
  lookup "id" d = None -> Forall (fun x => retried x = true) before ->
  forall text,
    ended (while_not_sent (before ++ VDict d :: rest) self room_id text)
    = Raised (KeyError "id")
    /\ final (while_not_sent (before ++ VDict d :: rest) self room_id text) = self
    /\ unread (while_not_sent (before ++ VDict d :: rest) self room_id text) = rest
    /\ exists es t,
         effects (while_not_sent (before ++ VDict d :: rest) self room_id text)
         = es ++ [Post (url_of room_id) t (VDict d)].
Proof.
  intros Hid B. induction B as [|x before Hx _ IH]; intros text.
  - cbn [app while_not_sent respond]. rewrite Hid.
    repeat split. now exists [], text.
  - cbn [app]. destruct (retried_respond text x Hx) as (w & t' & R & Hw).
    rewrite (while_not_sent_retry _ _ _ _ _ _ _ R Hw).
    destruct (IH t') as (I1 & I2 & I3 & es & t & I4).
    split; [now rewrite ended_after|].
    split; [exact I2|]. split; [exact I3|].
    exists ([Post (url_of room_id) text x; Sleep w] ++ es), t.
    cbn [after effects]. now rewrite I4, <- app_assoc.
Qed.

(** X11.  A dict response without the key ["id"] is fatal: the
    [KeyError] leaves the send loop and the worker, whose thread ends
    with it.  The post that got this response is the last effect, with no
    sleep after it; [_previous] is as it was, and the rest of the queue
    stays unserved. *)
Theorem missing_id_ends_the_worker
    (before : list value) (d : list (string * value)) (rest : list value)
    (self : t) (room_id text : string) (queue : list item) (fuel : nat) :
  lookup "id" d = None -> Forall (fun x => retried x = true) before ->
  message_queue self = Message room_id text :: queue ->
  ended (worker_loop (S fuel) (before ++ VDict d :: rest) self)
  = Raised (KeyError "id")
  /\ message_queue (final (worker_loop (S fuel) (before ++ VDict d :: rest) self))
     = queue
  /\ _previous (final (worker_loop (S fuel) (before ++ VDict d :: rest) self))
     = _previous self
  /\ unread (worker_loop (S fuel) (before ++ VDict d :: rest) self) = rest
  /\ exists es t,
       effects (worker_loop (S fuel) (before ++ VDict d :: rest) self)
       = es ++ [Post (url_of room_id) t (VDict d)].
Proof.
  intros Hid B Hq. rewrite (worker_loop_message _ _ _ _ _ _ Hq). cbv zeta.
  destruct (while_not_sent_missing_id before d rest
              (set_messages (messages self + 1) (set_message_queue queue self))
              room_id Hid B (duplicate_guard (_previous self) text))
    as (E1 & E2 & E3 & E4).
  rewrite E1. cbv iota. rewrite E1, E2, E3. repeat split. exact E4.
Qed.

Lemma missing_id_ends_the_worker_witness :
  lookup "id" [("error", VStr "x")] = None /\
  Forall (fun x => retried x = true) [VStr "?"] /\
  ended (worker_loop 3 ([VStr "?"] ++ VDict [("error", VStr "x")] :: [VNone])
           (send_all [("17", "a"); ("18", "b")] (__init__ "SE")))
  = Raised (KeyError "id") /\
  message_queue
    (final (worker_loop 3 ([VStr "?"] ++ VDict [("error", VStr "x")] :: [VNone])
              (send_all [("17", "a"); ("18", "b")] (__init__ "SE"))))
  = [Message "18" "b"].
Proof.
  assert (B : Forall (fun x => retried x = true) [VStr "?"])
    by (repeat constructor).
  split; [reflexivity|]. split; [exact B|].
  destruct (missing_id_ends_the_worker [VStr "?"] [("error", VStr "x")] [VNone]
              (send_all [("17", "a"); ("18", "b")] (__init__ "SE"))
              "17" "a" [Message "18" "b"] 2 eq_refl B eq_refl)
    as (E & Q & _).
  split; [exact E|exact Q].
Defined.

(* ================================================================== *)
(** ** More on the worker *)

Lemma paced_app_bounded (closed : bool) (es2 : list effect) (n : nat) :
  forall es1,
    (List.length es1 <= n)%nat ->
    paced true es1 = true -> paced closed es2 = true ->
    paced closed (es1 ++ es2) = true.
Proof.
  induction n as [|n IH]; intros es1 Hn H1 H2.
  - destruct es1; [exact H2|simpl in Hn; lia].
  - destruct es1 as [|[url text response|w] es1]; [exact H2| |discriminate].
    destruct es1 as [|[url' text' response'|w] es1]; try discriminate.
    cbn [paced app] in *. apply andb_prop in H1 as [Hw H1].
    rewrite Hw. cbn [andb]. apply IH; [simpl in Hn; lia|assumption..].
Qed.

Lemma paced_app (closed : bool) (es1 es2 : list effect) :
  paced true es1 = true -> paced closed es2 = true ->
  paced closed (es1 ++ es2) = true.
Proof. now apply (paced_app_bounded closed es2 (List.length es1)). Qed.

Lemma respond_wait_min (text : string) (response : value) (wait : Z) (text' : string) :
  respond text response = Ok (wait, text') -> wait <> 0 -> 5 <= wait.
Proof.
  unfold respond. destruct response as [| | |s| |l|d]; try (intros [= <- _]; lia).
  - destruct (match_TOO_FAST_RE s) as [ds|] eqn:M; intros [= <- _] _.
    + apply match_TOO_FAST_RE_Some in M as [D _].
      pose proof (int_nonneg ds D). unfold BACKOFF_MULTIPLIER, BACKOFF_ADDER. lia.
    + unfold BACKOFF_ADDER. lia.
  - destruct (lookup "id" d) as [[]|]; intros [= <- _]; unfold BACKOFF_ADDER; lia.
Qed.

Lemma while_not_sent_paced (script : list value) (self : t) (room_id : string) :
  forall text,
    paced false (effects (while_not_sent script self room_id text)) = true
    /\ (ended (while_not_sent script self room_id text) = Returned ->
        paced true (effects (while_not_sent script self room_id text)) = true).
Proof.
  induction script as [|response script IH]; intros text; cbn [while_not_sent].
  - split; [reflexivity|discriminate].
  - destruct (respond text response) as [[w t']|e] eqn:R.
    + destruct (Z.eqb_spec w 0) as [->|Hw]; cbn [negb].
      * split; reflexivity.
      * pose proof (respond_wait_min _ _ _ _ R Hw) as H5.
        apply Z.leb_le in H5. destruct (IH t') as [I1 I2].
        cbn [after effects ended app paced]. rewrite H5. cbn [andb]. auto.
    + split; [reflexivity|discriminate].
Qed.

Lemma worker_loop_paced (fuel : nat) :
  forall script self,
    paced false (effects (worker_loop fuel script self)) = true
    /\ (ended (worker_loop fuel script self) = Returned
        \/ ended (worker_loop fuel script self) = BlockedOnGet
        \/ ended (worker_loop fuel script self) = OutOfFuel ->
        paced true (effects (worker_loop fuel script self)) = true).
Proof.
  induction fuel as [|fuel IH]; intros script self; [split; reflexivity|].
  destruct (message_queue self) as [|[room_id text|] queue] eqn:Hq.
  - cbn [worker_loop]. rewrite Hq. split; reflexivity.
  - rewrite (worker_loop_message _ _ _ _ _ _ Hq). cbv zeta.
    set (self1 := set_messages (messages self + 1) (set_message_queue queue self)).
    set (T := duplicate_guard (_previous self) text).
    destruct (while_not_sent_paced script self1 room_id T) as [P1 P2].
    pose proof (while_not_sent_ended script self1 room_id T) as [N1 N2].
    destruct (ended (while_not_sent script self1 room_id T)) eqn:He;
      cbv iota; try (split; [exact P1|rewrite He; intros [?|[?|?]]; congruence]).
    destruct (IH (unread (while_not_sent script self1 room_id T))
                (final (while_not_sent script self1 room_id T))) as [I1 I2].
    cbn [after effects ended]. split.
    + apply paced_app; auto.
    + intros E. apply paced_app; auto.
  - cbn [worker_loop]. rewrite Hq. split; reflexivity.
Qed.

(** X12.  The worker never posts twice in a row: whatever the queue and
    whatever the transport answers, every post is followed by a sleep of
    at least 5 seconds before the next post.  Only the last post of a
    run can be without its sleep, when the run waits for the answer or
    ends on an error; a run that stops at the stop marker, on an empty
    queue or for lack of fuel has slept after every post. *)
Theorem worker_sleeps_between_posts
    (fuel : nat) (script : list value) (self : t) :
  paced false (effects (_worker fuel script self)) = true /\
  (ended (_worker fuel script self) = Returned
   \/ ended (_worker fuel script self) = BlockedOnGet
   \/ ended (_worker fuel script self) = OutOfFuel ->
   paced true (effects (_worker fuel script self)) = true).
Proof.
  unfold _worker. destruct (logged_in self); cbn [negb].
  - apply worker_loop_paced.
  - split; reflexivity.
Qed.

(** X13.  The worker takes the queue from its head and counts what it
    takes: after any run the queue it started with is the messages it has
    taken, in order, followed by the queue it leaves (with the stop
    marker in between when it returned on it), and [messages] has grown
    by the number of messages taken.  The run changes nothing of [site],
    [logged_in] and the state of the thread. *)
Theorem worker_takes_a_prefix (fuel : nat) (script : list value) (self : t) :
  exists taken,
    messages (final (worker_loop fuel script self))
    = messages self + Z.of_nat (List.length taken)
    /\ (message_queue self
        = map item_of taken ++ message_queue (final (worker_loop fuel script self))
        \/ (ended (worker_loop fuel script self) = Returned
            /\ message_queue self
               = map item_of taken ++ SystemExit
                   :: message_queue (final (worker_loop fuel script self))))
    /\ site (final (worker_loop fuel script self)) = site self
    /\ logged_in (final (worker_loop fuel script self)) = logged_in self
    /\ thread_started (final (worker_loop fuel script self)) = thread_started self.
Proof.
  revert script self.
  induction fuel as [|fuel IH]; intros script self.
  - exists []. cbn. repeat split; auto. lia.
  - destruct (message_queue self) as [|[room_id text|] queue] eqn:Hq.
    + exists []. cbn [worker_loop]. rewrite Hq. cbn. repeat split; auto. lia.
    + rewrite (worker_loop_message _ _ _ _ _ _ Hq). cbv zeta.
      set (self1 := set_messages (messages self + 1) (set_message_queue queue self)).
      set (T := duplicate_guard (_previous self) text).
      destruct (while_not_sent_final script self1 room_id T) as [p Hf].
      assert (One : messages (set__previous p self1) = messages self + Z.of_nat 1
                    /\ (Message room_id text :: queue
                        = map item_of [(room_id, text)]
                            ++ message_queue (set__previous p self1))
                    /\ site (set__previous p self1) = site self
                    /\ logged_in (set__previous p self1) = logged_in self
                    /\ thread_started (set__previous p self1) = thread_started self)
        by (cbn; repeat split; lia).
      destruct One as (O1 & O2 & O3 & O4 & O5).
      destruct (ended (while_not_sent script self1 room_id T)) eqn:He; cbv iota;
        try solve [exists [(room_id, text)]; rewrite Hf; repeat split; auto].
      destruct (IH (unread (while_not_sent script self1 room_id T))
                  (final (while_not_sent script self1 room_id T)))
        as (taken & I1 & I2 & I3 & I4 & I5).
      exists ((room_id, text) :: taken). cbn [after final ended].
      rewrite I1, I3, I4, I5, Hf, O1, O3, O4, O5.
      split; [cbn [List.length]; lia|]. split; [|auto].
      rewrite Hf in I2. cbn [message_queue set__previous self1 set_messages
        set_message_queue] in I2.
      destruct I2 as [I2|[E I2]]; [left|right; split; [exact E|]];
        cbn [map app item_of fst snd]; now rewrite <- I2.
    + exists []. cbn [worker_loop]. rewrite Hq. cbn.
      split; [lia|]. split; [right; auto|auto].
Qed.

(* ================================================================== *)
(** ** The stop marker and the duplicate guard over several messages *)

Lemma worker_loop_to_marker (calls : list call) :
  forall fuel script self after_marker,
    message_queue self = map item_of calls ++ SystemExit :: after_marker ->
    Forall (fun x => accepted x = true) script ->
    (List.length calls <= List.length script)%nat ->
    (List.length calls < fuel)%nat ->
    ended (worker_loop fuel script self) = Returned
    /\ message_queue (final (worker_loop fuel script self)) = after_marker
    /\ List.length (posts (effects (worker_loop fuel script self)))
       = List.length calls
    /\ unread (worker_loop fuel script self) = skipn (List.length calls) script.
Proof.
  induction calls as [|[room_id text] calls IH];
    intros fuel script self after_marker Hq Ha Hs Hf.
  - destruct fuel; [simpl in Hf; lia|]. cbn [worker_loop]. rewrite Hq. cbn. auto.
  - destruct fuel; [simpl in Hf; lia|].
    destruct script as [|response script]; [simpl in Hs; lia|].
    inversion Ha as [|? ? A Ha']; subst.
    rewrite (worker_loop_message _ _ _ _ _ _ Hq). cbv zeta.
    rewrite (while_not_sent_success _ _ _ _ _ _ (accepted_respond _ _ A)).
    cbn [ended final unread effects].
    match goal with
    | |- context [worker_loop fuel script ?s] =>
        destruct (IH fuel script s after_marker) as (I1 & I2 & I3 & I4);
          [reflexivity | exact Ha' | simpl in Hs; lia | simpl in Hf; lia |]
    end.
    rewrite ended_after, length_posts_after. cbn [after final unread].
    rewrite I1, I2, I3, I4. auto.
Qed.

(** X14.  A logout lets the worker finish what was queued before it and
    nothing else: on a transport that accepts every post, the running
    worker posts once for each message that was pending at the logout,
    then returns on the stop marker; the messages queued after the logout
    are left in the queue, unsent.  The teardown [__del__] of a logged-in
    instance queues the same marker. *)
Theorem logout_drains_then_stops
    (calls later : list call) (self : t) (fuel : nat) (script : list value) :
  logged_in self = true -> message_queue self = map item_of calls ->
  Forall (fun x => accepted x = true) script ->
  (List.length calls <= List.length script)%nat ->
  (List.length calls < fuel)%nat ->
  ended (worker_loop fuel script (send_all later (snd (logout self)))) = Returned
  /\ message_queue
       (final (worker_loop fuel script (send_all later (snd (logout self)))))
     = map item_of later
  /\ List.length
       (posts (effects (worker_loop fuel script
                          (send_all later (snd (logout self))))))
     = List.length calls
  /\ message_queue (snd (__del__ self)) = message_queue (snd (logout self))
  /\ fst (__del__ self) = Raise AssertionError.
Proof.
  intros Hl Hq Ha Hs Hf.
  assert (Q : message_queue (send_all later (snd (logout self)))
              = map item_of calls ++ SystemExit :: map item_of later).
  { destruct (send_all_queue later (snd (logout self))) as [-> _].
    unfold logout. rewrite Hl. cbn. now rewrite Hq, <- app_assoc. }
  destruct (worker_loop_to_marker calls fuel script _ _ Q Ha Hs Hf)
    as (E1 & E2 & E3 & _).
  split; [exact E1|]. split; [exact E2|]. split; [exact E3|].
  unfold __del__, logout. rewrite Hl. split; reflexivity.
Qed.

Lemma logout_drains_then_stops_witness :
  logged_in (send_all [("17", "a")] (set_logged_in true (__init__ "SE"))) = true /\
  ended (worker_loop 2 [VNone]
           (send_all [("18", "b")]
              (snd (logout (send_all [("17", "a")]
                              (set_logged_in true (__init__ "SE")))))))
  = Returned /\
  message_queue
    (final (worker_loop 2 [VNone]
              (send_all [("18", "b")]
                 (snd (logout (send_all [("17", "a")]
                                 (set_logged_in true (__init__ "SE"))))))))
  = map item_of [("18", "b")].
Proof.
  split; [reflexivity|].
  destruct (logout_drains_then_stops [("17", "a")] [("18", "b")]
              (send_all [("17", "a")] (set_logged_in true (__init__ "SE")))
              2 [VNone]) as (E1 & E2 & _);
    [reflexivity|reflexivity|repeat constructor|simpl; lia|simpl; lia|].
  split; [exact E1|exact E2].
Defined.

Lemma string_neq_cons (s : string) : forall c, s <> String c s.
Proof.
  induction s as [|a s IH]; intros c; [discriminate|].
  intros [= -> E]. exact (IH _ E).
Qed.

(** X15.  The duplicate guard compares with the text of the last post,
    whatever the room, so it acts on every second of a run of equal
    texts: of three messages with the same text, to any rooms, each
    accepted at once, the first is posted as it is, the second with a
    leading space, and the third as it is again. *)
Theorem guard_acts_on_every_second
    (r1 r2 r3 text : string) (a1 a2 a3 : value) (queue : list item) (self : t) :
  message_queue self
  = Message r1 text :: Message r2 text :: Message r3 text :: queue ->
  _previous self <> Some text ->
  accepted a1 = true -> accepted a2 = true -> accepted a3 = true ->
  posts (effects (worker_loop 3 [a1; a2; a3] self))
  = [ (url_of r1, text, a1);
      (url_of r2, (" " ++ text)%string, a2);
      (url_of r3, text, a3) ].
Proof.
  intros Hq Hp A1 A2 A3.
  assert (G1 : duplicate_guard (_previous self) text = text).
  { unfold duplicate_guard. destruct (_previous self) as [p|]; [|reflexivity].
    destruct (String.eqb_spec text p); [subst; congruence|reflexivity]. }
  assert (G2 : duplicate_guard (Some text) text = (" " ++ text)%string)
    by (unfold duplicate_guard; now rewrite String.eqb_refl).
  assert (G3 : duplicate_guard (Some (" " ++ text)%string) text = text).
  { unfold duplicate_guard.
    destruct (String.eqb_spec text (" " ++ text)%string) as [E|]; [|reflexivity].
    now destruct (string_neq_cons text " "%char). }
  rewrite (worker_loop_message _ _ _ _ _ _ Hq). cbv zeta. rewrite G1.
  rewrite (while_not_sent_success _ _ _ _ _ _ (accepted_respond _ _ A1)).
  cbn [ended final unread effects].
  erewrite worker_loop_message by reflexivity. cbv zeta.
  cbn [_previous set__previous]. rewrite G2.
  rewrite (while_not_sent_success _ _ _ _ _ _ (accepted_respond _ _ A2)).
  cbn [ended final unread effects].
  erewrite worker_loop_message by reflexivity. cbv zeta.
  cbn [_previous set__previous]. rewrite G3.
  rewrite (while_not_sent_success _ _ _ _ _ _ (accepted_respond _ _ A3)).
  reflexivity.
Qed.

Lemma guard_acts_on_every_second_witness :
  _previous (send_all [("17", "hi"); ("18", "hi"); ("17", "hi")] (__init__ "SE"))
  <> Some "hi" /\
  posts (effects (worker_loop 3 [VNone; VInt 1; VDict [("id", VInt 5)]]
    (send_all [("17", "hi"); ("18", "hi"); ("17", "hi")] (__init__ "SE"))))
  = [ (url_of "17", "hi", VNone);
      (url_of "18", " hi", VInt 1);
      (url_of "17", "hi", VDict [("id", VInt 5)]) ].
Proof.
  split; [discriminate|].
  apply (guard_acts_on_every_second "17" "18" "17" "hi"
           VNone (VInt 1) (VDict [("id", VInt 5)]) []
           (send_all [("17", "hi"); ("18", "hi"); ("17", "hi")] (__init__ "SE")));
    [reflexivity|discriminate|reflexivity..].
Defined.

(* ================================================================== *)
(** ** More on login and logout *)

Lemma login_site_Ok (br : SEChatBrowser) (site0 : string) (u : unit) :
  login_site br site0 = Ok u <->
  (site0 = "SE" /\ loginSECOM br = Ok tt /\ loginChatSE br = Ok tt)
  \/ (site0 = "SO" /\ loginSO br = Ok tt)
  \/ (site0 = "MSE" /\ loginMSE br = Ok tt).
Proof.
  destruct u. unfold login_site.
  destruct (String.eqb_spec site0 "SE") as [->|N1].
  - destruct (loginSECOM br) as [[]|]; cbn [bind];
      [destruct (loginChatSE br) as [[]|]|]; split; intros H; auto;
      try discriminate;
      destruct H as [(_ & H1 & H2)|[(H & _)|(H & _)]]; discriminate.
  - destruct (String.eqb_spec site0 "SO") as [->|N2].
    + destruct (loginSO br) as [[]|]; split; intros H; auto; try discriminate;
        destruct H as [(H & _)|[(_ & H)|(H & _)]]; discriminate.
    + destruct (String.eqb_spec site0 "MSE") as [->|N3].
      * destruct (loginMSE br) as [[]|]; split; intros H; auto; try discriminate;
          destruct H as [(H & _)|[(H & _)|(_ & H)]]; discriminate.
      * split; [discriminate|].
        intros [(H & _)|[(H & _)|(H & _)]]; contradiction.
Qed.

(** X16.  [login] returns exactly when the instance is not logged in,
    its thread has never been started, the OpenID step returns and so do
    the steps of the site: [loginSECOM] and [loginChatSE] for "SE",
    [loginSO] for "SO", [loginMSE] for "MSE".  It then sets [logged_in],
    starts the thread and changes nothing else; in every other case it
    raises. *)
Theorem login_returns_iff
    (br : SEChatBrowser) (username password : string) (self self' : t) :
  login br username password self = (Ok tt, self') <->
  logged_in self = false /\ thread_started self = false
  /\ loginSEOpenID br username password = Ok tt
  /\ ((site self = "SE" /\ loginSECOM br = Ok tt /\ loginChatSE br = Ok tt)
      \/ (site self = "SO" /\ loginSO br = Ok tt)
      \/ (site self = "MSE" /\ loginMSE br = Ok tt))
  /\ self' = set_thread_started true (set_logged_in true self).
Proof.
  rewrite <- (login_site_Ok br (site self) tt).
  unfold login, thread_start. cbn [thread_started set_logged_in].
  destruct (logged_in self).
  - split; [discriminate|]. now intros [H _].
  - destruct (loginSEOpenID br username password) as [[]|e].
    + destruct (login_site br (site self)) as [[]|e].
      * destruct (thread_started self).
        -- split; [discriminate|]. now intros (_ & H & _).
        -- split; [intros [= <-]; auto|]. now intros (_ & _ & _ & _ & ->).
      * split; [discriminate|]. now intros (_ & _ & _ & H & _).
    + split; [discriminate|]. now intros (_ & _ & H & _).
Qed.

(** X17.  An instance serves one login only.  After a login and a
    logout, a second login on the same transport passes every step of
    the transport and then raises [RuntimeError], for a thread cannot be
    started twice; it leaves [logged_in] set although no worker runs, so
    that the logout after it returns again. *)
Theorem second_login_raises
    (br : SEChatBrowser) (username password : string) (self self1 self2 : t) :
  login br username password self = (Ok tt, self1) ->
  logout self1 = (Ok tt, self2) ->
  login br username password self2 = (Raise RuntimeError, set_logged_in true self2)
  /\ fst (logout (set_logged_in true self2)) = Ok tt.
Proof.
  intros L1 L2. apply login_returns_iff in L1 as (_ & _ & O & S & ->).
  rewrite <- (login_site_Ok br (site self) tt) in S.
  unfold logout in L2. cbn in L2. injection L2 as <-.
  unfold login, thread_start. cbn. rewrite O, S. split; reflexivity.
Qed.

Lemma second_login_raises_witness :
  login browser_ok "user" "secret" (__init__ "SO")
  = (Ok tt, set_thread_started true (set_logged_in true (__init__ "SO"))) /\
  login browser_ok "user" "secret"
    (snd (logout (set_thread_started true (set_logged_in true (__init__ "SO")))))
  = (Raise RuntimeError,
     set_logged_in true
       (snd (logout (set_thread_started true (set_logged_in true (__init__ "SO")))))).
Proof.
  split; [reflexivity|].
  apply (second_login_raises browser_ok "user" "secret" (__init__ "SO")
           (set_thread_started true (set_logged_in true (__init__ "SO")))
           (snd (logout (set_thread_started true
                           (set_logged_in true (__init__ "SO"))))));
    reflexivity.
Defined.

Lemma call_op_thread (o : op) (self : t) :
  thread_started self = true ->
  thread_started (snd (call_op o self)) = true
  /\ login_returned (o, fst (call_op o self)) = false.
Proof.
  intros T. destruct o as [br username password| |room_id text];
    cbn [call_op login_returned].
  - unfold login, thread_start. cbn [thread_started set_logged_in]. rewrite T.
    destruct (logged_in self); [auto|].
    destruct (loginSEOpenID br username password); [|auto].
    destruct (login_site br (site self)); auto.
  - unfold logout. destruct (logged_in self); auto.
  - auto.
Qed.

Lemma session_thread (ops : list op) :
  forall self,
    thread_started self = true ->
    filter login_returned (fst (session ops self)) = []
    /\ thread_started (snd (session ops self)) = true.
Proof.
  induction ops as [|o ops IH]; intros self T; cbn [session]; [auto|].
  destruct (call_op_thread o self T) as [T' L].
  destruct (call_op o self) as [r self']. cbn [fst snd] in *.
  destruct (IH self' T') as [I1 I2].
  destruct (session ops self') as [log self'']. cbn [fst snd filter] in *.
  now rewrite L.
Qed.

Lemma call_op_invariant (o : op) (self : t) :
  (logged_in self = true -> thread_started self = true) ->
  (logged_in (snd (call_op o self)) = true ->
   thread_started (snd (call_op o self)) = true)
  /\ (login_returned (o, fst (call_op o self)) = true ->
      thread_started (snd (call_op o self)) = true).
Proof.
  intros I. destruct o as [br username password| |room_id text];
    cbn [call_op login_returned].
  - unfold login, thread_start. cbn [thread_started set_logged_in].
    destruct (logged_in self) eqn:L; cbn [fst snd];
      [split; [auto|discriminate]|].
    destruct (loginSEOpenID br username password); cbn [fst snd];
      [|split; [rewrite L; discriminate|discriminate]].
    destruct (login_site br (site self)); cbn [fst snd];
      [|split; [rewrite L; discriminate|discriminate]].
    destruct (thread_started self) eqn:T; cbn; auto.
  - unfold logout. destruct (logged_in self) eqn:L; cbn; split; intros;
      solve [auto | congruence].
  - cbn. split; [auto|discriminate].
Qed.

Lemma session_invariant (ops : list op) :
  forall self,
    (logged_in self = true -> thread_started self = true) ->
    (List.length (filter login_returned (fst (session ops self))) <= 1)%nat
    /\ (logged_in (snd (session ops self)) = true ->
        thread_started (snd (session ops self)) = true).
Proof.
  induction ops as [|o ops IH]; intros self I; cbn [session]; [auto|].
  destruct (call_op_invariant o self I) as [I' L].
  pose proof (session_thread ops (snd (call_op o self))) as T.
  destruct (call_op o self) as [r self']. cbn [fst snd] in *.
  destruct (IH self' I') as [I1 I2].
  destruct (session ops self') as [log self'']. cbn [fst snd filter] in *.
  split; [|exact I2].
  destruct (login_returned (o, r)); [|exact I1].
  destruct (T (L eq_refl)) as [-> _]. simpl. lia.
Qed.

(** X18.  Over any sequence of calls to [login], [logout] and
    [sendMessage] on a new instance, with any transports: at most one
    login returns, and the instance is never logged in without its thread
    having been started. *)
Theorem at_most_one_login_returns (site0 : string) (ops : list op) :
  (List.length (filter login_returned (fst (session ops (__init__ site0)))) <= 1)%nat
  /\ (logged_in (snd (session ops (__init__ site0))) = true ->
      thread_started (snd (session ops (__init__ site0))) = true).
Proof. apply session_invariant. discriminate. Qed.
